(** * WRO Future Engineers vehicle controller

    A shallow embedding of [Code/WRO_2025_Future_Engineers_Code.py] and the
    properties of its colour classifier, decision policy, lap counter and
    parking wait.

    Conventions of the embedding.
    - Python [int] is [Z]; the integer [%] with a positive modulus is
      [Z.modulo].
    - Python [float] values are idealised as exact rationals [Q]: the hue
      computed by [hue_from_rgb] and the hold times given to [time.sleep];
      rounding inside [hue_from_rgb] is not modelled.  Comparisons of a hue
      with the integer window bounds are exact in Python, so [in_window] is
      modelled without loss for every finite hue.
    - The hub is the environment: every read of a device, of the clock or of
      the button takes the next value of an input stream ([Env]); every call
      that drives a motor or sleeps appends an [Event] to the trace.
    - Unbounded [while] loops take a fuel argument and report whether they
      ended or ran out of fuel, with the state reached in both cases. *)

From Stdlib Require Import ZArith QArith Qround Lqa Qfield List Bool Lia String.
Import ListNotations.

Local Open Scope Z_scope.

(** ** The hub: inputs and actuation events *)

(** What the program does to the outside world, in program order. *)
Inductive Event : Type :=
| Run_at_speed_drive (speed : Z)            (* m_drive.run_at_speed(speed) *)
| Brake_drive                               (* m_drive.brake() *)
| Run_to_position_steer (angle speed : Z)   (* m_steer.run_to_position(..) *)
| Run_to_position_probe (angle speed : Z)   (* m_probe.run_to_position(..) *)
| Sleep_ms (t : Z)                          (* time.sleep_ms(t) *)
| Sleep_s (s : Q)                           (* time.sleep(s) *)
| Print_msg (msg : string).                 (* print(msg) *)

(** The values the hub hands to the program: the k-th call of each reader
    gets the k-th element of its stream.  For the three devices [None] stands
    for every way the read can fail inside the [try] (an exception, a [None]
    result, a [None] first component, too few components). *)
Record Env : Type := mkEnv {
  dev_front_get : nat -> option Z;
  dev_side_get : nat -> option Z;
  dev_color_get : nat -> option (Z * Z * Z);
  ticks_ms : nat -> Z;
  button_right_is_pressed : nat -> bool
}.

(** How far each input stream has been read, and the trace so far. *)
Record St : Type := mkSt {
  front_n : nat;
  side_n : nat;
  color_n : nat;
  ticks_n : nat;
  button_n : nat;
  trace : list Event
}.

Definition st0 : St := mkSt 0 0 0 0 0 [].

(** ** A state monad for the straight-line code *)

Definition M (A : Type) : Type := St -> A * St.

Definition ret {A : Type} (a : A) : M A := fun s => (a, s).

Definition bind {A B : Type} (m : M A) (k : A -> M B) : M B :=
  fun s => let (a, s') := m s in k a s'.

Declare Scope prog_scope.
Delimit Scope prog_scope with prog.

Notation "x <- m ;; k" := (bind m (fun x => k))
  (at level 100, m at next level, right associativity) : prog_scope.
Notation "m ;; k" := (bind m (fun _ => k))
  (at level 100, right associativity) : prog_scope.

Local Open Scope prog_scope.

Definition emit (e : Event) : M unit :=
  fun s => (tt, mkSt (front_n s) (side_n s) (color_n s) (ticks_n s)
                     (button_n s) (trace s ++ [e])).

Definition exec {A : Type} (m : M A) (s : St) : St := snd (m s).
Definition result {A : Type} (m : M A) (s : St) : A := fst (m s).

(** The outcome of a loop run with fuel. *)
Inductive Run (A : Type) : Type :=
| Done (a : A) (s : St)
| Out_of_fuel (s : St).

Arguments Done {A} a s.
Arguments Out_of_fuel {A} s.

(** ** Tunables *)

Definition PROBE_DOWN_DEG : Z := 215.
Definition PROBE_UP_DEG : Z := 301.
Definition PROBE_SPEED : Z := 600.

Definition STEER_SPEED_DPS : Z := 600.
Definition STEER_RIGHT_TURN : Z := -45.
Definition STEER_LEFT_TURN : Z := 45.
Definition STEER_RIGHT_SIGN : Z := -30.
Definition STEER_LEFT_SIGN : Z := 30.
Definition STEER_WALL_NUDGE : Z := 15.

Definition TURN_90_TIME_S : Q := 90 # 100.
Definition SIGN_HOLD_S : Q := 60 # 100.
Definition WALL_NUDGE_S : Q := 20 # 100.

Definition CRUISE_SPEED_DPS : Z := 400.
Definition PARK_SPEED_DPS : Z := 300.

Definition CORNER_FRONT_MM : Z := 200.
Definition CORNER_RIGHT_OPEN : Z := 600.
Definition CORNER_RIGHT_TIGHT : Z := 200.
Definition PILLAR_FRONT_MM : Z := 250.
Definition PILLAR_SIDE_CLEAR : Z := 350.
Definition WALL_TOO_NEAR_MM : Z := 130.

Definition COLOR_SAMPLES : nat := 8.
Definition SAMPLE_DELAY_MS : Z := 20.
Definition MIN_VALUE_SUM : Z := 40.

(** The value the distance readers return when the read fails. *)
Definition DISTANCE_SENTINEL : Z := 99999.

(** ** Colour classification via RGB *)

(** The labels are the strings ['red'], ['green'], ['magenta'], ['white'] of
    the source; Python's [None] (no label) is [None]. *)
Inductive Color : Type := red | green | magenta | white.

Definition Color_eqb (a b : Color) : bool :=
  match a, b with
  | red, red | green, green | magenta, magenta | white, white => true
  | _, _ => false
  end.

Definition Qltb (x y : Q) : bool := (Qnum x * QDen y <? Qnum y * QDen x)%Z.

(** Python's [max] and [min] of three arguments: the first extremal one. *)
Definition max3 (a b c : Q) : Q :=
  let m := if Qltb a b then b else a in if Qltb m c then c else m.

Definition min3 (a b c : Q) : Q :=
  let m := if Qltb b a then b else a in if Qltb c m then c else m.

(** Python's [x % m] on numbers, for [m > 0]: the remainder of the floored
    quotient. *)
Definition Qmod (x m : Q) : Q := (x - inject_Z (Qfloor (x / m)) * m)%Q.

Definition hue_from_rgb (r g b : Z) : option Q :=
  let r_ := (inject_Z r / 100)%Q in
  let g_ := (inject_Z g / 100)%Q in
  let b_ := (inject_Z b / 100)%Q in
  let mx := max3 r_ g_ b_ in
  let mn := min3 r_ g_ b_ in
  let d := (mx - mn)%Q in
  if Qeq_bool d 0 then None
  else
    let h :=
      if Qeq_bool mx r_ then Qmod ((g_ - b_) / d)%Q 6
      else if Qeq_bool mx g_ then ((b_ - r_) / d + 2)%Q
      else ((r_ - g_) / d + 4)%Q in
    Some (60 * h)%Q.

Definition in_window (h : option Q) (center win : Z) : bool :=
  match h with
  | None => false
  | Some h =>
      let lo := (center - win) mod 360 in
      let hi := (center + win) mod 360 in
      if lo <=? hi
      then Qle_bool (inject_Z lo) h && Qle_bool h (inject_Z hi)
      else Qle_bool (inject_Z lo) h || Qle_bool h (inject_Z hi)
  end.

(** The white-marker test shared by [classify_once] and [see_white_marker]:
    all channels high and balanced. *)
Definition white_test (r g b : Z) : bool :=
  (r >? 60) && (g >? 60) && (b >? 60)
  && (Z.max (Z.max (Z.abs (r - g)) (Z.abs (g - b))) (Z.abs (r - b)) <? 15).

(** The body of [classify_once] after the sample has been read. *)
Definition classify_rgb (rgb : Z * Z * Z) : option Color :=
  let '(r, g, b) := rgb in
  if r + g + b <? MIN_VALUE_SUM then None
  else
    let h := hue_from_rgb r g b in
    if in_window h 0 20 || in_window h 360 20 then Some red
    else if in_window h 120 25 then Some green
    else if in_window h 300 25 then Some magenta
    else if white_test r g b then Some white
    else None.

(** The [counts] dictionary: keys in insertion order, which is the order
    [max] walks them in. *)
Definition Counts : Type := list (Color * Z).

Definition counts_init : Counts :=
  [(red, 0); (green, 0); (magenta, 0); (white, 0)].

Fixpoint counts_get (k : Color) (cs : Counts) : Z :=
  match cs with
  | [] => 0
  | (k', v) :: t => if Color_eqb k k' then v else counts_get k t
  end.

Definition counts_mem (k : Color) (cs : Counts) : bool :=
  existsb (fun kv => Color_eqb k (fst kv)) cs.

(** [counts[k] += 1] for a key that is present. *)
Fixpoint counts_incr (k : Color) (cs : Counts) : Counts :=
  match cs with
  | [] => []
  | (k', v) :: t =>
      if Color_eqb k k' then (k', v + 1) :: t else (k', v) :: counts_incr k t
  end.

(** Python's [max(iterable, key=...)]: the first element whose key is
    maximal; [None] stands for the error on an empty iterable. *)
Definition py_max {A : Type} (key : A -> Z) (l : list A) : option A :=
  match l with
  | [] => None
  | x :: t =>
      Some (fold_left (fun best y => if key best <? key y then y else best) t x)
  end.

(** The last two lines of [vote_color]: pick the top label, keep it only with
    at least two votes. *)
Definition pick_top (counts : Counts) : option Color :=
  match py_max (fun k => counts_get k counts) (map fst counts) with
  | Some winner => if counts_get winner counts >=? 2 then Some winner else None
  | None => None
  end.

Section Program.

Variable env : Env.

(** ** Tiny helpers and device reads *)

Definition ms : M Z :=
  fun s => (ticks_ms env (ticks_n s),
            mkSt (front_n s) (side_n s) (color_n s) (S (ticks_n s))
                 (button_n s) (trace s)).

Definition wait_ms (t : Z) : M unit := emit (Sleep_ms t).

Definition sleep (s : Q) : M unit := emit (Sleep_s s).

Definition is_pressed : M bool :=
  fun s => (button_right_is_pressed env (button_n s),
            mkSt (front_n s) (side_n s) (color_n s) (ticks_n s)
                 (S (button_n s)) (trace s)).

Definition get_front_mm : M Z :=
  fun s => (match dev_front_get env (front_n s) with
            | Some v => v
            | None => 99999
            end,
            mkSt (S (front_n s)) (side_n s) (color_n s) (ticks_n s)
                 (button_n s) (trace s)).

Definition get_side_mm : M Z :=
  fun s => (match dev_side_get env (side_n s) with
            | Some v => v
            | None => 99999
            end,
            mkSt (front_n s) (S (side_n s)) (color_n s) (ticks_n s)
                 (button_n s) (trace s)).

(** [get_rgb]: the three channels, each clamped below at 0; (0,0,0) when the
    read fails. *)
Definition get_rgb : M (Z * Z * Z) :=
  fun s => (match dev_color_get env (color_n s) with
            | Some (r, g, b) => (Z.max 0 r, Z.max 0 g, Z.max 0 b)
            | None => (0, 0, 0)
            end,
            mkSt (front_n s) (side_n s) (S (color_n s)) (ticks_n s)
                 (button_n s) (trace s)).

(** ** Motion helpers *)

Definition drive_forward (speed : Z) : M unit := emit (Run_at_speed_drive speed).

Definition drive_stop : M unit := emit Brake_drive.

Definition steer_to (angle_deg : Z) : M unit :=
  emit (Run_to_position_steer angle_deg STEER_SPEED_DPS).

Definition straighten : M unit := steer_to 0.

Definition steer_arc (angle_deg : Z) (hold_s : Q) : M unit :=
  steer_to angle_deg ;;
  sleep hold_s ;;
  straighten.

Definition probe_to (angle_deg speed_dps : Z) : M unit :=
  emit (Run_to_position_probe angle_deg speed_dps).

Definition probe_down : M unit := probe_to PROBE_DOWN_DEG PROBE_SPEED.

Definition probe_up : M unit := probe_to PROBE_UP_DEG PROBE_SPEED.

(** ** Colour classification: the reads and the vote *)

Definition classify_once : M (option Color) :=
  rgb <- get_rgb ;;
  ret (classify_rgb rgb).

Fixpoint vote_loop (samples : nat) (counts : Counts) : M Counts :=
  match samples with
  | O => ret counts
  | S n =>
      c <- classify_once ;;
      let counts' :=
        match c with
        | Some k => if counts_mem k counts then counts_incr k counts else counts
        | None => counts
        end in
      wait_ms SAMPLE_DELAY_MS ;;
      vote_loop n counts'
  end.

Definition vote_color (samples : nat) : M (option Color) :=
  counts <- vote_loop samples counts_init ;;
  ret (pick_top counts).

Definition see_white_marker : M bool :=
  rgb <- get_rgb ;;
  let '(r, g, b) := rgb in
  ret (white_test r g b).

(** ** Behaviour blocks *)

Definition handle_cornering (ud sd : Z) : M bool :=
  if (ud <? CORNER_FRONT_MM) && (sd >? CORNER_RIGHT_OPEN) then
    steer_arc STEER_RIGHT_TURN TURN_90_TIME_S ;;
    ret true
  else if (ud <? CORNER_FRONT_MM) && (sd <? CORNER_RIGHT_TIGHT) then
    steer_arc STEER_LEFT_TURN TURN_90_TIME_S ;;
    ret true
  else ret false.

Definition handle_wall_nudge (sd : Z) : M bool :=
  if sd <? WALL_TOO_NEAR_MM then
    steer_arc STEER_WALL_NUDGE WALL_NUDGE_S ;;
    ret true
  else ret false.

(** The steering that follows the vote in [handle_pillar]. *)
Definition sign_steer (sig : option Color) : M unit :=
  match sig with
  | Some green => steer_arc STEER_LEFT_SIGN SIGN_HOLD_S
  | Some red => steer_arc STEER_RIGHT_SIGN SIGN_HOLD_S
  | _ => ret tt
  end.

Definition handle_pillar (ud sd : Z) : M bool :=
  if (ud <? PILLAR_FRONT_MM) && (sd >? PILLAR_SIDE_CLEAR) then
    drive_stop ;;
    probe_down ;;
    wait_ms 120 ;;
    sig <- vote_color COLOR_SAMPLES ;;
    probe_up ;;
    sign_steer sig ;;
    drive_forward CRUISE_SPEED_DPS ;;
    ret true
  else ret false.

(** The parking sequence that follows the wait loop of [do_parking]. *)
Definition park_sequence : M unit :=
  steer_to 30 ;;
  emit (Run_at_speed_drive PARK_SPEED_DPS) ;;
  sleep (15 # 10) ;;
  drive_stop ;;
  straighten.

(** The [while True] loop of [do_parking]: vote until magenta. *)
Fixpoint wait_for_magenta (fuel : nat) (s : St) : Run unit :=
  match fuel with
  | O => Out_of_fuel s
  | S fuel' =>
      let (c, s1) := vote_color COLOR_SAMPLES s in
      match c with
      | Some magenta => Done tt s1
      | _ => wait_for_magenta fuel' (exec (wait_ms 30) s1)
      end
  end.

Definition do_parking (fuel : nat) (s : St) : Run unit :=
  match wait_for_magenta fuel (exec drive_stop s) with
  | Done _ s1 => Done tt (exec park_sequence s1)
  | Out_of_fuel s1 => Out_of_fuel s1
  end.

(** ** Main *)

Definition WHITE_COOLDOWN : Z := 2000.

(** The two local variables of [main] that count laps. *)
Record LapState : Type := mkLap {
  laps_done : Z;
  last_white_ms : Z
}.

Definition lap0 : LapState := mkLap 0 (-99999).

(** Steps 1) to 3) of the loop body: corners first, then wall keeping, then
    pillar/sign. *)
Definition decision_policy (ud sd : Z) : M unit :=
  cornered <- handle_cornering ud sd ;;
  if cornered then ret tt
  else
    nudged <- handle_wall_nudge sd ;;
    if nudged then ret tt
    else (handle_pillar ud sd ;; ret tt).

(** Lap detection on the white tile. *)
Definition lap_detection (l : LapState) : M LapState :=
  seen <- see_white_marker ;;
  if seen then
    now <- ms ;;
    if now - last_white_ms l >? WHITE_COOLDOWN then
      sleep (4 # 10) ;;
      ret (mkLap (laps_done l + 1) now)
    else ret l
  else ret l.

(** The first half of the loop body: read both distances, run the policy. *)
Definition sense_and_decide : M unit :=
  ud <- get_front_mm ;;
  sd <- get_side_mm ;;
  decision_policy ud sd.

Definition loop_body (l : LapState) : M LapState :=
  sense_and_decide ;;
  l' <- lap_detection l ;;
  wait_ms 10 ;;
  ret l'.

(** [while laps_done < 3]. *)
Fixpoint race_loop (fuel : nat) (l : LapState) (s : St) : Run LapState :=
  if laps_done l <? 3 then
    match fuel with
    | O => Out_of_fuel s
    | S fuel' => let (l', s') := loop_body l s in race_loop fuel' l' s'
    end
  else Done l s.

(** [while not pressed: wait_ms(30)] and [while pressed: wait_ms(30)]. *)
Fixpoint wait_button (want : bool) (fuel : nat) (s : St) : Run unit :=
  match fuel with
  | O => Out_of_fuel s
  | S fuel' =>
      let (p, s1) := is_pressed s in
      if Bool.eqb p want then Done tt s1
      else wait_button want fuel' (exec (wait_ms 30) s1)
  end.

Definition startup : M unit :=
  probe_up ;;
  straighten ;;
  drive_stop.

Definition main (fuel : nat) (s : St) : Run unit :=
  match wait_button true fuel
          (exec (startup ;; emit (Print_msg "Press RIGHT hub button to start…")) s)
  with
  | Out_of_fuel s1 => Out_of_fuel s1
  | Done _ s1 =>
      match wait_button false fuel s1 with
      | Out_of_fuel s2 => Out_of_fuel s2
      | Done _ s2 =>
          match race_loop fuel lap0 (exec (drive_forward CRUISE_SPEED_DPS) s2) with
          | Out_of_fuel s3 => Out_of_fuel s3
          | Done _ s3 =>
              match do_parking fuel s3 with
              | Out_of_fuel s4 => Out_of_fuel s4
              | Done _ s4 => Done tt (exec (emit (Print_msg "Parked. Done.")) s4)
              end
          end
      end
  end.

End Program.

(** ** The situations of the specification

    The program has no situation type: it has three handlers called in an
    [if]/[elif]/[else] chain.  The definitions below follow the words of the
    specification (section 4.2) and are compared with the handlers in the
    theorems. *)

Inductive Situation : Type :=
| CornerRightOpen
| CornerLeftFailsafe
| WallTooNear
| PillarCandidate
| NoAction.

(** The condition of each detector as the specification words it. *)
Definition detector (sit : Situation) (frontMm sideMm : Z) : bool :=
  match sit with
  | CornerRightOpen =>
      (frontMm <? CORNER_FRONT_MM) && (sideMm >? CORNER_RIGHT_OPEN)
  | CornerLeftFailsafe =>
      (frontMm <? CORNER_FRONT_MM) && (sideMm <? CORNER_RIGHT_TIGHT)
  | WallTooNear => sideMm <? WALL_TOO_NEAR_MM
  | PillarCandidate =>
      (frontMm <? PILLAR_FRONT_MM) && (sideMm >? PILLAR_SIDE_CLEAR)
  | NoAction => true
  end.

Definition priority_order : list Situation :=
  [CornerRightOpen; CornerLeftFailsafe; WallTooNear; PillarCandidate].

(** First match wins; [NoAction] when no detector matches. *)
Definition spec_select (frontMm sideMm : Z) : Situation :=
  match find (fun sit => detector sit frontMm sideMm) priority_order with
  | Some sit => sit
  | None => NoAction
  end.

(** The detectors whose condition holds for a reading, in priority order. *)
Definition holding (frontMm sideMm : Z) : list Situation :=
  filter (fun sit => detector sit frontMm sideMm) priority_order.

(** The response to a pillar candidate: stop, probe down, vote, probe up,
    steer by the sign, resume. *)
Definition pillar_response (env : Env) : M unit :=
  drive_stop ;;
  probe_down ;;
  wait_ms 120 ;;
  sig <- vote_color env COLOR_SAMPLES ;;
  probe_up ;;
  sign_steer sig ;;
  drive_forward CRUISE_SPEED_DPS.

(** The maneuver of each situation. *)
Definition maneuver (env : Env) (sit : Situation) : M unit :=
  match sit with
  | CornerRightOpen => steer_arc STEER_RIGHT_TURN TURN_90_TIME_S
  | CornerLeftFailsafe => steer_arc STEER_LEFT_TURN TURN_90_TIME_S
  | WallTooNear => steer_arc STEER_WALL_NUDGE WALL_NUDGE_S
  | PillarCandidate => pillar_response env
  | NoAction => ret tt
  end.

(** ** The vote as a function of the sample stream *)

(** The label of the k-th sample of the colour stream. *)
Definition label_at (env : Env) (k : nat) : option Color :=
  classify_rgb
    match dev_color_get env k with
    | Some (r, g, b) => (Z.max 0 r, Z.max 0 g, Z.max 0 b)
    | None => (0, 0, 0)
    end.

(** The labels of [n] successive samples from the k-th on. *)
Definition labels (env : Env) (k n : nat) : list (option Color) :=
  map (label_at env) (seq k n).

Definition is_label (c : Color) (l : option Color) : bool :=
  match l with
  | Some c' => Color_eqb c c'
  | None => false
  end.

(** How many of the labels are [c]. *)
Definition tally (c : Color) (ls : list (option Color)) : Z :=
  Z.of_nat (List.length (filter (is_label c) ls)).

(** The position of a label in the enumeration red, green, magenta, white. *)
Definition rank (c : Color) : nat :=
  match c with
  | red => 0
  | green => 1
  | magenta => 2
  | white => 3
  end.

Definition tallies (ls : list (option Color)) : Counts :=
  [(red, tally red ls); (green, tally green ls);
   (magenta, tally magenta ls); (white, tally white ls)].

(** The vote over the [n] samples from the i-th on. *)
Definition vote_at (env : Env) (i n : nat) : option Color :=
  pick_top (tallies (labels env i n)).

(** The k-th vote taken by the wait loop of [do_parking] entered in state
    [s]: each vote reads [COLOR_SAMPLES] samples. *)
Definition parking_vote (env : Env) (s : St) (k : nat) : option Color :=
  vote_at env (color_n s + COLOR_SAMPLES * k) COLOR_SAMPLES.

(** The state after [samples] more colour samples were read and [events]
    were performed. *)
Definition after (s : St) (samples : nat) (events : list Event) : St :=
  mkSt (front_n s) (side_n s) (color_n s + samples) (ticks_n s) (button_n s)
       (trace s ++ events).

(** ** Event sequences *)

(** The events of an open-loop arc. *)
Definition arc_events (angle_deg : Z) (hold_s : Q) : list Event :=
  [Run_to_position_steer angle_deg STEER_SPEED_DPS; Sleep_s hold_s;
   Run_to_position_steer 0 STEER_SPEED_DPS].

Definition vote_events (samples : nat) : list Event :=
  repeat (Sleep_ms SAMPLE_DELAY_MS) samples.

(** A vote that is not magenta, then the 30 ms pause. *)
Definition wait_round_events : list Event :=
  vote_events COLOR_SAMPLES ++ [Sleep_ms 30].

Fixpoint wait_events (rounds : nat) : list Event :=
  match rounds with
  | O => []
  | S n => wait_round_events ++ wait_events n
  end.

Definition park_events : list Event :=
  [Run_to_position_steer 30 STEER_SPEED_DPS; Run_at_speed_drive PARK_SPEED_DPS;
   Sleep_s (15 # 10); Brake_drive; Run_to_position_steer 0 STEER_SPEED_DPS].

(** ** Hubs used as examples *)

(** A hub whose devices answer the same at every read, whose clock advances
    500 ms between two reads and whose button is never pressed. *)
Definition steady_hub (front side : option Z) (rgb : option (Z * Z * Z)) : Env :=
  mkEnv (fun _ => front) (fun _ => side) (fun _ => rgb)
        (fun k => 500 * Z.of_nat k) (fun _ => false).

(** ** Readings and postures *)

(** The k-th front and side distances as the readers return them. *)
Definition front_at (env : Env) (k : nat) : Z :=
  match dev_front_get env k with
  | Some v => v
  | None => 99999
  end.

Definition side_at (env : Env) (k : nat) : Z :=
  match dev_side_get env k with
  | Some v => v
  | None => 99999
  end.

(** Whether the k-th colour sample passes the white test. *)
Definition marker_at (env : Env) (k : nat) : bool :=
  match dev_color_get env k with
  | Some (r, g, b) => white_test (Z.max 0 r) (Z.max 0 g) (Z.max 0 b)
  | None => white_test 0 0 0
  end.

(** The events of the pillar response for a given vote. *)
Definition pillar_events (sig : option Color) : list Event :=
  [Brake_drive; Run_to_position_probe PROBE_DOWN_DEG PROBE_SPEED; Sleep_ms 120]
  ++ vote_events COLOR_SAMPLES
  ++ [Run_to_position_probe PROBE_UP_DEG PROBE_SPEED]
  ++ match sig with
     | Some green => arc_events STEER_LEFT_SIGN SIGN_HOLD_S
     | Some red => arc_events STEER_RIGHT_SIGN SIGN_HOLD_S
     | _ => []
     end
  ++ [Run_at_speed_drive CRUISE_SPEED_DPS].

(** The events of a situation's maneuver, the pillar vote being [sig]. *)
Definition maneuver_events (sit : Situation) (sig : option Color) : list Event :=
  match sit with
  | CornerRightOpen => arc_events STEER_RIGHT_TURN TURN_90_TIME_S
  | CornerLeftFailsafe => arc_events STEER_LEFT_TURN TURN_90_TIME_S
  | WallTooNear => arc_events STEER_WALL_NUDGE WALL_NUDGE_S
  | PillarCandidate => pillar_events sig
  | NoAction => []
  end.

(** The colour samples a situation's maneuver reads. *)
Definition maneuver_samples (sit : Situation) : nat :=
  match sit with
  | PillarCandidate => COLOR_SAMPLES
  | _ => O
  end.

(** The last position commanded to the steering motor by a run of events,
    [a] if there is none; likewise for the probe motor. *)
Definition steer_after (a : option Z) (es : list Event) : option Z :=
  fold_left (fun a e => match e with
                        | Run_to_position_steer angle _ => Some angle
                        | _ => a
                        end) es a.

Definition probe_after (a : option Z) (es : list Event) : option Z :=
  fold_left (fun a e => match e with
                        | Run_to_position_probe angle _ => Some angle
                        | _ => a
                        end) es a.

(** The last command to the drive motor. *)
Inductive Drive : Type :=
| Running (speed : Z)
| Braked.

Definition drive_after (a : option Drive) (es : list Event) : option Drive :=
  fold_left (fun a e => match e with
                        | Run_at_speed_drive speed => Some (Running speed)
                        | Brake_drive => Some Braked
                        | _ => a
                        end) es a.

(** The events of the startup posture. *)
Definition startup_events : list Event :=
  [Run_to_position_probe PROBE_UP_DEG PROBE_SPEED;
   Run_to_position_steer 0 STEER_SPEED_DPS; Brake_drive].

(** The state a fuelled loop stopped in, ended or not. *)
Definition run_state {A : Type} (r : Run A) : St :=
  match r with
  | Done _ s => s
  | Out_of_fuel s => s
  end.

(** The state after [n] more reads of the button and [events]. *)
Definition after_button (s : St) (n : nat) (events : list Event) : St :=
  mkSt (front_n s) (side_n s) (color_n s) (ticks_n s) (button_n s + n)
       (trace s ++ events).

(** A hub for a whole run: the button is pressed at the first read and
    released after, both distances always fail to read, the first three
    colour samples are white and the later ones magenta, and the clock
    advances 3000 ms between two reads. *)
Definition race_hub : Env :=
  mkEnv (fun _ => None) (fun _ => None)
        (fun k => if (k <? 3)%nat then Some (70, 70, 70) else Some (80, 10, 80))
        (fun k => 3000 * Z.of_nat k)
        (fun k => (k =? 0)%nat).

(** * Properties *)

(** ** The state monad *)

Lemma exec_bind {A B : Type} (m : M A) (k : A -> M B) (s : St) :
  exec (bind m k) s = exec (k (result m s)) (exec m s).
Proof.
  unfold exec, result, bind. destruct (m s) as [a s']. reflexivity.
Qed.

Lemma result_bind {A B : Type} (m : M A) (k : A -> M B) (s : St) :
  result (bind m k) s = result (k (result m s)) (exec m s).
Proof.
  unfold exec, result, bind. destruct (m s) as [a s']. reflexivity.
Qed.

Lemma run_eq {A : Type} (m : M A) (s : St) : m s = (result m s, exec m s).
Proof. unfold result, exec. destruct (m s); reflexivity. Qed.

Lemma trace_emit (e : Event) (s : St) : trace (exec (emit e) s) = trace s ++ [e].
Proof. reflexivity. Qed.

Lemma trace_steer_arc (angle_deg : Z) (hold_s : Q) (s : St) :
  trace (exec (steer_arc angle_deg hold_s) s)
  = trace s ++ arc_events angle_deg hold_s.
Proof.
  unfold arc_events. cbn. rewrite <- !app_assoc. reflexivity.
Qed.

Lemma after_0 (s : St) : after s 0 [] = s.
Proof.
  unfold after. rewrite Nat.add_0_r, app_nil_r. destruct s; reflexivity.
Qed.

Lemma after_after (s : St) (n m : nat) (es fs : list Event) :
  after (after s n es) m fs = after s (n + m) (es ++ fs).
Proof.
  unfold after. cbn [front_n side_n color_n ticks_n button_n trace].
  rewrite Nat.add_assoc, app_assoc. reflexivity.
Qed.

Lemma after_emit (e : Event) (s : St) : exec (emit e) s = after s 0 [e].
Proof.
  unfold after, exec, emit. cbn [snd]. rewrite Nat.add_0_r. reflexivity.
Qed.

(** Runs the straight-line helpers; the colour vote stays folded. *)
Ltac run_prog :=
  cbv [bind ret emit exec result
       drive_stop drive_forward steer_to straighten steer_arc sleep wait_ms
       probe_to probe_down probe_up sign_steer];
  cbn [fst snd front_n side_n color_n ticks_n button_n trace].

Ltac split_vote env :=
  match goal with
  | |- context [vote_color env COLOR_SAMPLES ?s] =>
      destruct (vote_color env COLOR_SAMPLES s) as [[[ | | | ]|] ?]
  end.

(** ** The handlers fire on the detector conditions *)

Lemma handle_cornering_fires (ud sd : Z) (s : St) :
  result (handle_cornering ud sd) s
  = detector CornerRightOpen ud sd || detector CornerLeftFailsafe ud sd.
Proof.
  unfold handle_cornering, detector.
  destruct ((ud <? CORNER_FRONT_MM) && (sd >? CORNER_RIGHT_OPEN)); [reflexivity|].
  destruct ((ud <? CORNER_FRONT_MM) && (sd <? CORNER_RIGHT_TIGHT)); reflexivity.
Qed.

Lemma handle_wall_nudge_fires (sd : Z) (s : St) :
  forall ud, result (handle_wall_nudge sd) s = detector WallTooNear ud sd.
Proof.
  intros ud. unfold handle_wall_nudge, detector.
  destruct (sd <? WALL_TOO_NEAR_MM); reflexivity.
Qed.

Lemma handle_pillar_fires (env : Env) (ud sd : Z) (s : St) :
  result (handle_pillar env ud sd) s = detector PillarCandidate ud sd.
Proof.
  unfold handle_pillar, detector.
  destruct ((ud <? PILLAR_FRONT_MM) && (sd >? PILLAR_SIDE_CLEAR)); [|reflexivity].
  run_prog. split_vote env; reflexivity.
Qed.

Lemma decision_policy_maneuver (env : Env) (ud sd : Z) (s : St) :
  decision_policy env ud sd s = maneuver env (spec_select ud sd) s.
Proof.
  unfold decision_policy, spec_select, priority_order.
  unfold handle_cornering, handle_wall_nudge, handle_pillar, maneuver.
  cbn [find detector].
  destruct ((ud <? CORNER_FRONT_MM) && (sd >? CORNER_RIGHT_OPEN));
    [reflexivity|].
  destruct ((ud <? CORNER_FRONT_MM) && (sd <? CORNER_RIGHT_TIGHT));
    [reflexivity|].
  destruct (sd <? WALL_TOO_NEAR_MM); [reflexivity|].
  destruct ((ud <? PILLAR_FRONT_MM) && (sd >? PILLAR_SIDE_CLEAR));
    [|reflexivity].
  unfold pillar_response. run_prog. split_vote env; reflexivity.
Qed.

(** C1: the loop body tries the detectors in the order CornerRightOpen,
    CornerLeftFailsafe, WallTooNear, PillarCandidate and performs the maneuver
    of the first one whose condition holds, and of no other; for front 150 mm
    and side 800 mm that is CornerRightOpen, whose right-turn arc is the whole
    of what the policy does. *)
Theorem decision_policy_first_match (env : Env) (ud sd : Z) (s : St) :
  decision_policy env ud sd s = maneuver env (spec_select ud sd) s
  /\ spec_select 150 800 = CornerRightOpen
  /\ trace (exec (decision_policy env 150 800) s)
     = trace s ++ arc_events STEER_RIGHT_TURN TURN_90_TIME_S.
Proof.
  split; [|split].
  - apply decision_policy_maneuver.
  - reflexivity.
  - unfold exec. rewrite decision_policy_maneuver.
    apply trace_steer_arc.
Qed.

(** ** Detector overlap *)

(** C2, as stated, fails: for front 150 mm and side 800 mm the conditions of
    CornerRightOpen and of PillarCandidate both hold, and both handlers act
    when called on that reading; for front 150 mm and side 100 mm the
    conditions of CornerLeftFailsafe and of WallTooNear both hold. *)
Lemma detectors_not_exclusive :
  holding 150 800 = [CornerRightOpen; PillarCandidate]
  /\ holding 150 100 = [CornerLeftFailsafe; WallTooNear]
  /\ result (handle_cornering 150 800) st0 = true
  /\ result (handle_pillar (steady_hub None None None) 150 800) st0 = true
  /\ ~ (forall ud sd, (List.length (holding ud sd) <= 1)%nat).
Proof.
  repeat split; try reflexivity.
  intros H. specialize (H 150 800). cbn in H. lia.
Qed.

(** C2, amended: of the six pairs of detector conditions, four are mutually
    exclusive on every reading (CornerRightOpen with CornerLeftFailsafe,
    CornerRightOpen with WallTooNear, CornerLeftFailsafe with PillarCandidate,
    WallTooNear with PillarCandidate), so at most two conditions hold at once;
    the two pairs left are CornerRightOpen with PillarCandidate and
    CornerLeftFailsafe with WallTooNear. *)
Theorem detectors_exclusive_pairs (ud sd : Z) :
  detector CornerRightOpen ud sd && detector CornerLeftFailsafe ud sd = false
  /\ detector CornerRightOpen ud sd && detector WallTooNear ud sd = false
  /\ detector CornerLeftFailsafe ud sd && detector PillarCandidate ud sd = false
  /\ detector WallTooNear ud sd && detector PillarCandidate ud sd = false
  /\ (List.length (holding ud sd) <= 2)%nat.
Proof.
  unfold holding, priority_order, detector.
  unfold CORNER_FRONT_MM, CORNER_RIGHT_OPEN, CORNER_RIGHT_TIGHT,
    PILLAR_FRONT_MM, PILLAR_SIDE_CLEAR, WALL_TOO_NEAR_MM.
  cbn [filter].
  destruct (Z.ltb_spec ud 200), (Z.ltb_spec ud 250), (Z.ltb_spec sd 200),
    (Z.ltb_spec sd 130), (Z.gtb_spec sd 600), (Z.gtb_spec sd 350);
    cbn; repeat split; try reflexivity; lia.
Qed.

(** ** The classifier *)

Lemma result_classify_once (env : Env) (s : St) :
  result (classify_once env) s = classify_rgb (result (get_rgb env) s).
Proof. reflexivity. Qed.

Lemma exec_classify_once (env : Env) (s : St) :
  exec (classify_once env) s = exec (get_rgb env) s.
Proof. reflexivity. Qed.

Lemma result_see_white_marker (env : Env) (s : St) :
  result (see_white_marker env) s
  = let '(r, g, b) := result (get_rgb env) s in white_test r g b.
Proof.
  unfold result, see_white_marker, bind. cbn.
  destruct (dev_color_get env (color_n s)) as [[[r g] b]|]; reflexivity.
Qed.

(** C3: a sample whose channel sum is below [MIN_VALUE_SUM] (40) gets no
    label; a failed read of the colour sensor gives the sample (0,0,0), which
    gets no label. *)
Theorem classify_once_dark (env : Env) (s : St) :
  (forall r g b,
      result (get_rgb env) s = (r, g, b) ->
      r + g + b < MIN_VALUE_SUM ->
      result (classify_once env) s = None)
  /\ (dev_color_get env (color_n s) = None ->
      result (get_rgb env) s = (0, 0, 0)
      /\ result (classify_once env) s = None).
Proof.
  split.
  - intros r g b Hread Hdark.
    rewrite result_classify_once, Hread. unfold classify_rgb.
    apply Z.ltb_lt in Hdark. rewrite Hdark. reflexivity.
  - intros Hfail. rewrite result_classify_once.
    unfold result, get_rgb. cbn. rewrite Hfail. split; reflexivity.
Qed.

Lemma classify_once_dark_witness :
  result (classify_once (steady_hub None None (Some (12, 13, 14)))) st0 = None
  /\ result (classify_once (steady_hub None None None)) st0 = None.
Proof.
  split.
  - apply (proj1 (classify_once_dark
                    (steady_hub None None (Some (12, 13, 14))) st0) 12 13 14).
    + reflexivity.
    + unfold MIN_VALUE_SUM. lia.
  - apply (proj2 (classify_once_dark (steady_hub None None None) st0)).
    reflexivity.
Defined.

(** C4: when the low bound of a window, reduced mod 360, is above its high
    bound, a hue is in the window iff it is at or above the low bound or at or
    below the high bound; 355 and 5 are both in the red window (centre 0,
    width 20). *)
Theorem in_window_wraparound :
  (forall (h : Q) (center win : Z),
      (center + win) mod 360 < (center - win) mod 360 ->
      in_window (Some h) center win = true
      <-> (inject_Z ((center - win) mod 360) <= h
           \/ h <= inject_Z ((center + win) mod 360))%Q)
  /\ in_window (Some 355%Q) 0 20 = true
  /\ in_window (Some 5%Q) 0 20 = true.
Proof.
  split; [|split; reflexivity].
  intros h center win Hwrap. unfold in_window.
  apply Z.leb_gt in Hwrap. rewrite Hwrap.
  rewrite orb_true_iff, !Qle_bool_iff. reflexivity.
Qed.

Lemma in_window_wraparound_witness :
  in_window (Some 355%Q) 0 20 = true
  <-> (inject_Z ((0 - 20) mod 360) <= 355 \/ 355 <= inject_Z ((0 + 20) mod 360))%Q.
Proof.
  apply (proj1 in_window_wraparound 355%Q 0 20). reflexivity.
Defined.

(** C10: for the sample (70, 62, 62) the fast marker check answers true while
    the classifier answers red: the sample passes the white test, but its hue
    0 is in the red window, which the classifier tries first. *)
Theorem marker_check_and_classifier_disagree (env : Env) (s : St) :
  dev_color_get env (color_n s) = Some (70, 62, 62) ->
  result (see_white_marker env) s = true
  /\ result (classify_once env) s = Some red
  /\ white_test 70 62 62 = true
  /\ in_window (hue_from_rgb 70 62 62) 0 20 = true.
Proof.
  intros Hread.
  rewrite result_see_white_marker, result_classify_once.
  unfold result, get_rgb. cbn [fst]. rewrite Hread.
  repeat split; reflexivity.
Qed.

Lemma marker_check_and_classifier_disagree_witness :
  result (see_white_marker (steady_hub None None (Some (70, 62, 62)))) st0 = true
  /\ result (classify_once (steady_hub None None (Some (70, 62, 62)))) st0
     = Some red
  /\ white_test 70 62 62 = true
  /\ in_window (hue_from_rgb 70 62 62) 0 20 = true.
Proof.
  apply (marker_check_and_classifier_disagree
           (steady_hub None None (Some (70, 62, 62))) st0).
  reflexivity.
Defined.

(** ** The vote *)

Lemma result_get_rgb_label (env : Env) (s : St) :
  result (classify_once env) s = label_at env (color_n s).
Proof.
  rewrite result_classify_once. unfold label_at, result, get_rgb. reflexivity.
Qed.

Lemma tally_cons (c : Color) (l : option Color) (ls : list (option Color)) :
  tally c (l :: ls) = (if is_label c l then 1 else 0) + tally c ls.
Proof.
  unfold tally. cbn [filter]. destruct (is_label c l); cbn [List.length]; lia.
Qed.

(** What one pass of the sampling loop does to the counters and to the
    state. *)
Lemma vote_loop_counts (env : Env) (n : nat) :
  forall (a b c d : Z) (s : St),
    vote_loop env n [(red, a); (green, b); (magenta, c); (white, d)] s
    = (let ls := labels env (color_n s) n in
       [(red, a + tally red ls); (green, b + tally green ls);
        (magenta, c + tally magenta ls); (white, d + tally white ls)],
       mkSt (front_n s) (side_n s) (color_n s + n) (ticks_n s) (button_n s)
            (trace s ++ vote_events n)).
Proof.
  induction n as [|n IH]; intros a b c d s.
  - cbn. rewrite !Z.add_0_r, Nat.add_0_r, app_nil_r. destruct s; reflexivity.
  - cbn [vote_loop]. unfold bind at 1. rewrite (run_eq (classify_once env) s).
    rewrite result_get_rgb_label, exec_classify_once.
    unfold labels. cbn [seq map]. fold (labels env (S (color_n s)) n).
    rewrite !tally_cons.
    unfold bind, wait_ms, emit.
    destruct (label_at env (color_n s)) as [[ | | | ]|];
      cbn [counts_mem existsb Color_eqb fst orb counts_incr is_label];
      rewrite IH; cbn [color_n front_n side_n ticks_n button_n trace exec snd get_rgb];
      unfold vote_events; cbn [repeat];
      rewrite <- app_assoc, <- plus_n_Sm; cbn [app];
      rewrite ?Z.add_0_l, ?Z.add_assoc; reflexivity.
Qed.

Lemma vote_color_run (env : Env) (n : nat) (s : St) :
  vote_color env n s = (vote_at env (color_n s) n, after s n (vote_events n)).
Proof.
  unfold vote_color, bind, counts_init. rewrite vote_loop_counts.
  reflexivity.
Qed.

Ltac split_ltb t :=
  match goal with
  | |- context [Z.ltb (t ?x) (t ?y)] => destruct (Z.ltb_spec (t x) (t y))
  end; cbn [counts_get Color_eqb].

Ltac split_geb t :=
  match goal with
  | |- context [Z.geb (t ?x) ?y] => destruct (Z.geb_spec (t x) y)
  end.

(** The winner read off four counters. *)
Lemma pick_top_spec (t : Color -> Z) (w : Color) :
  pick_top [(red, t red); (green, t green); (magenta, t magenta);
            (white, t white)] = Some w
  <-> (2 <= t w
       /\ (forall k, t k <= t w)
       /\ (forall k, t k = t w -> (rank w <= rank k)%nat)).
Proof.
  unfold pick_top, py_max. cbn [map fst fold_left counts_get Color_eqb].
  split.
  - split_ltb t; split_ltb t; split_ltb t; split_geb t; try discriminate;
      intros [= <-];
      (split; [lia | split; intros [ | | | ]; cbn [rank]; lia]).
  - intros (Hq & Hmax & Hfirst).
    pose proof (Hmax red) as Mr. pose proof (Hmax green) as Mg.
    pose proof (Hmax magenta) as Mm. pose proof (Hmax white) as Mw.
    pose proof (Hfirst red) as Fr. pose proof (Hfirst green) as Fg.
    pose proof (Hfirst magenta) as Fm. pose proof (Hfirst white) as Fw.
    split_ltb t; split_ltb t; split_ltb t; split_geb t;
      destruct w; cbn [rank] in *; try reflexivity; exfalso; lia.
Qed.

Lemma pick_top_none (t : Color -> Z) :
  pick_top [(red, t red); (green, t green); (magenta, t magenta);
            (white, t white)] = None
  <-> (forall k, t k < 2).
Proof.
  unfold pick_top, py_max. cbn [map fst fold_left counts_get Color_eqb].
  split.
  - split_ltb t; split_ltb t; split_ltb t; split_geb t; try discriminate;
      intros _ [ | | | ]; lia.
  - intros H.
    pose proof (H red). pose proof (H green).
    pose proof (H magenta). pose proof (H white).
    split_ltb t; split_ltb t; split_ltb t; split_geb t;
      try reflexivity; exfalso; lia.
Qed.

(** C5: over the labels of the samples it reads, [vote_color] answers a label
    exactly when that label has the highest tally, the tally is at least 2,
    and no label earlier in the order red, green, magenta, white has the same
    tally; it answers no label exactly when every tally is below 2; so its
    answer is a function of the sequence of labels. *)
Theorem vote_color_quorum_tie_break (env : Env) (n : nat) (s : St) :
  let ls := labels env (color_n s) n in
  (forall w,
      result (vote_color env n) s = Some w
      <-> (2 <= tally w ls
           /\ (forall k, tally k ls <= tally w ls)
           /\ (forall k, tally k ls = tally w ls -> (rank w <= rank k)%nat)))
  /\ (result (vote_color env n) s = None <-> forall k, tally k ls < 2)
  /\ (forall env' s',
         labels env' (color_n s') n = ls ->
         result (vote_color env' n) s' = result (vote_color env n) s).
Proof.
  intros ls. unfold result. rewrite vote_color_run. cbn [fst].
  unfold vote_at. fold ls.
  split; [|split].
  - intros w. unfold tallies.
    apply (pick_top_spec (fun k => tally k ls) w).
  - unfold tallies. apply (pick_top_none (fun k => tally k ls)).
  - intros env' s' Hls. rewrite vote_color_run. cbn [fst]. unfold vote_at.
    rewrite Hls.
    reflexivity.
Qed.

(** ** The distance sentinel *)

(** C6: a failed distance read gives the sentinel 99999, which passes none of
    the below-threshold tests of the policy; with a failed front read and a
    side distance of 100 mm the policy performs the wall nudge and nothing
    else. *)
Theorem sentinel_reads_as_far (env : Env) (s : St) :
  (dev_front_get env (front_n s) = None ->
   result (get_front_mm env) s = DISTANCE_SENTINEL)
  /\ (dev_side_get env (side_n s) = None ->
      result (get_side_mm env) s = DISTANCE_SENTINEL)
  /\ (DISTANCE_SENTINEL <? CORNER_FRONT_MM) = false
  /\ (DISTANCE_SENTINEL <? PILLAR_FRONT_MM) = false
  /\ (DISTANCE_SENTINEL <? CORNER_RIGHT_TIGHT) = false
  /\ (DISTANCE_SENTINEL <? WALL_TOO_NEAR_MM) = false
  /\ (forall sd,
         detector CornerRightOpen DISTANCE_SENTINEL sd = false
         /\ detector CornerLeftFailsafe DISTANCE_SENTINEL sd = false
         /\ detector PillarCandidate DISTANCE_SENTINEL sd = false)
  /\ spec_select DISTANCE_SENTINEL 100 = WallTooNear
  /\ (dev_front_get env (front_n s) = None ->
      dev_side_get env (side_n s) = Some 100 ->
      trace (exec (sense_and_decide env) s)
      = trace s ++ arc_events STEER_WALL_NUDGE WALL_NUDGE_S).
Proof.
  repeat split; try reflexivity.
  - intros Hf. unfold result, get_front_mm. cbn [fst]. rewrite Hf. reflexivity.
  - intros Hs. unfold result, get_side_mm. cbn [fst]. rewrite Hs. reflexivity.
  - intros Hf Hs. unfold sense_and_decide, exec, bind, get_front_mm, get_side_mm.
    cbn [front_n side_n]. rewrite Hf, Hs.
    rewrite decision_policy_maneuver.
    change (spec_select 99999 100) with WallTooNear.
    exact (trace_steer_arc STEER_WALL_NUDGE WALL_NUDGE_S _).
Qed.

Lemma sentinel_reads_as_far_witness :
  trace (exec (sense_and_decide (steady_hub None (Some 100) None)) st0)
  = trace st0 ++ arc_events STEER_WALL_NUDGE WALL_NUDGE_S.
Proof.
  apply (sentinel_reads_as_far (steady_hub None (Some 100) None) st0);
    reflexivity.
Defined.

(** ** Lap counting *)

Lemma lap_detection_result (env : Env) (l : LapState) (s : St) :
  result (lap_detection env l) s
  = if result (see_white_marker env) s
       && (ticks_ms env (ticks_n s) - last_white_ms l >? WHITE_COOLDOWN)
    then mkLap (laps_done l + 1) (ticks_ms env (ticks_n s))
    else l.
Proof.
  unfold lap_detection. rewrite result_bind.
  destruct (result (see_white_marker env) s); [|reflexivity].
  rewrite result_bind.
  assert (Hn : result (ms env) (exec (see_white_marker env) s)
               = ticks_ms env (ticks_n s)).
  { unfold result, exec, see_white_marker, bind, get_rgb, ms.
    destruct (dev_color_get env (color_n s)) as [[[r g] b]|]; reflexivity. }
  rewrite Hn. cbn [andb].
  destruct (ticks_ms env (ticks_n s) - last_white_ms l >? WHITE_COOLDOWN);
    reflexivity.
Qed.

(** C7: a pass of the lap detection counts a lap exactly when the marker is
    seen and the clock is more than 2000 ms past the last accepted detection,
    and then records the clock value; otherwise the lap state is unchanged.
    So of two detections 500 ms apart the second is not counted. *)
Theorem lap_cooldown (env : Env) (l : LapState) (s : St) :
  let now := ticks_ms env (ticks_n s) in
  result (lap_detection env l) s
  = (if result (see_white_marker env) s
        && (now - last_white_ms l >? WHITE_COOLDOWN)
     then mkLap (laps_done l + 1) now
     else l)
  /\ (forall s2 : St,
         result (see_white_marker env) s = true ->
         now - last_white_ms l > WHITE_COOLDOWN ->
         result (see_white_marker env) s2 = true ->
         ticks_ms env (ticks_n s2) = now + 500 ->
         result (lap_detection env (result (lap_detection env l) s)) s2
         = mkLap (laps_done l + 1) now).
Proof.
  intros now. split.
  - apply lap_detection_result.
  - intros s2 Hseen Hpast Hseen2 Hlater.
    rewrite (lap_detection_result env l s). fold now. rewrite Hseen.
    apply Z.gt_lt, Z.gtb_lt in Hpast. rewrite Hpast. cbn [andb].
    rewrite lap_detection_result, Hseen2, Hlater.
    cbn [andb last_white_ms].
    replace (now + 500 - now >? WHITE_COOLDOWN) with false; [reflexivity|].
    symmetry. unfold WHITE_COOLDOWN. rewrite Z.gtb_ltb. apply Z.ltb_ge. lia.
Qed.

(** ** The pillar response *)

(** C9: when the pillar condition holds, [handle_pillar] stops, lowers the
    probe, votes over the next 8 samples, raises the probe, then steers by the
    vote: to +30 for the sign hold and back to 0 on green, to -30 and back on
    red, not at all on any other answer; it ends by driving forward at cruise
    speed in every case. *)
Theorem pillar_maneuver_follows_vote (env : Env) (ud sd : Z) (s : St) :
  ud < PILLAR_FRONT_MM ->
  sd > PILLAR_SIDE_CLEAR ->
  result (handle_pillar env ud sd) s = true
  /\ trace (exec (handle_pillar env ud sd) s)
     = trace s
       ++ [Brake_drive; Run_to_position_probe PROBE_DOWN_DEG PROBE_SPEED;
           Sleep_ms 120]
       ++ vote_events COLOR_SAMPLES
       ++ [Run_to_position_probe PROBE_UP_DEG PROBE_SPEED]
       ++ match vote_at env (color_n s) COLOR_SAMPLES with
          | Some green => arc_events STEER_LEFT_SIGN SIGN_HOLD_S
          | Some red => arc_events STEER_RIGHT_SIGN SIGN_HOLD_S
          | _ => []
          end
       ++ [Run_at_speed_drive CRUISE_SPEED_DPS].
Proof.
  intros Hfront Hside.
  apply Z.ltb_lt in Hfront. apply Z.gt_lt, Z.gtb_lt in Hside.
  unfold handle_pillar. rewrite Hfront, Hside. cbn [andb].
  run_prog. rewrite vote_color_run. unfold after.
  cbn [front_n side_n color_n ticks_n button_n trace].
  unfold arc_events.
  destruct (vote_at env (color_n s) COLOR_SAMPLES) as [[ | | | ]|];
    cbn [fst snd trace]; rewrite <- !app_assoc; split; reflexivity.
Qed.

Lemma pillar_maneuver_follows_vote_witness :
  result (handle_pillar (steady_hub None None (Some (10, 80, 10))) 220 400) st0
  = true
  /\ trace (exec (handle_pillar (steady_hub None None (Some (10, 80, 10)))
                                220 400) st0)
     = trace st0
       ++ [Brake_drive; Run_to_position_probe PROBE_DOWN_DEG PROBE_SPEED;
           Sleep_ms 120]
       ++ vote_events COLOR_SAMPLES
       ++ [Run_to_position_probe PROBE_UP_DEG PROBE_SPEED]
       ++ match vote_at (steady_hub None None (Some (10, 80, 10)))
                        (color_n st0) COLOR_SAMPLES with
          | Some green => arc_events STEER_LEFT_SIGN SIGN_HOLD_S
          | Some red => arc_events STEER_RIGHT_SIGN SIGN_HOLD_S
          | _ => []
          end
       ++ [Run_at_speed_drive CRUISE_SPEED_DPS].
Proof.
  apply (pillar_maneuver_follows_vote
           (steady_hub None None (Some (10, 80, 10))) 220 400 st0).
  - unfold PILLAR_FRONT_MM. lia.
  - unfold PILLAR_SIDE_CLEAR. lia.
Defined.

Lemma lap_cooldown_witness :
  result (lap_detection (steady_hub None None (Some (70, 70, 70)))
            (result (lap_detection (steady_hub None None (Some (70, 70, 70)))
                       lap0) st0))
         (exec (loop_body (steady_hub None None (Some (70, 70, 70))) lap0) st0)
  = mkLap 1 0.
Proof.
  apply (proj2 (lap_cooldown (steady_hub None None (Some (70, 70, 70)))
                  lap0 st0)
               (exec (loop_body (steady_hub None None (Some (70, 70, 70)))
                        lap0) st0));
    reflexivity.
Defined.

(** ** The parking wait *)

Lemma wait_round (env : Env) (s : St) :
  exec (wait_ms 30) (after s COLOR_SAMPLES (vote_events COLOR_SAMPLES))
  = after s COLOR_SAMPLES wait_round_events.
Proof.
  unfold wait_ms. rewrite after_emit, after_after, Nat.add_0_r. reflexivity.
Qed.

Lemma is_label_magenta (v : option Color) :
  is_label magenta v = true <-> v = Some magenta.
Proof.
  destruct v as [[ | | | ]|]; cbn; split; congruence.
Qed.

(** One turn of the loop. *)
Lemma wait_for_magenta_step (env : Env) (fuel : nat) (s : St) :
  wait_for_magenta env (S fuel) s
  = if is_label magenta (vote_at env (color_n s) COLOR_SAMPLES)
    then Done tt (after s COLOR_SAMPLES (vote_events COLOR_SAMPLES))
    else wait_for_magenta env fuel (after s COLOR_SAMPLES wait_round_events).
Proof.
  cbn [wait_for_magenta]. rewrite vote_color_run, (wait_round env).
  destruct (vote_at env (color_n s) COLOR_SAMPLES) as [[ | | | ]|];
    reflexivity.
Qed.

Lemma vote_index_succ (c j : nat) :
  (c + COLOR_SAMPLES + COLOR_SAMPLES * j = c + COLOR_SAMPLES * S j)%nat.
Proof. lia. Qed.

(** While no vote is magenta the loop only votes and pauses. *)
Lemma wait_for_magenta_none (env : Env) (fuel : nat) :
  forall s : St,
    (forall j, (j < fuel)%nat ->
               vote_at env (color_n s + COLOR_SAMPLES * j) COLOR_SAMPLES
               <> Some magenta) ->
    wait_for_magenta env fuel s
    = Out_of_fuel (after s (COLOR_SAMPLES * fuel) (wait_events fuel)).
Proof.
  induction fuel as [|fuel IH]; intros s Hno.
  - cbn [wait_for_magenta wait_events]. rewrite Nat.mul_0_r, after_0.
    reflexivity.
  - rewrite wait_for_magenta_step.
    pose proof (Hno 0%nat (Nat.lt_0_succ fuel)) as H0.
    rewrite Nat.mul_0_r, Nat.add_0_r in H0.
    destruct (is_label magenta _) eqn:Hm.
    + apply is_label_magenta in Hm. contradiction.
    + rewrite IH.
      * rewrite after_after. cbn [wait_events]. do 2 f_equal. lia.
      * intros j Hj. cbn [after color_n]. rewrite vote_index_succ.
        apply Hno. lia.
Qed.

(** The loop ends at the first magenta vote, if the fuel reaches it. *)
Lemma wait_for_magenta_found (env : Env) (k : nat) :
  forall (fuel : nat) (s : St),
    (k < fuel)%nat ->
    (forall j, (j < k)%nat ->
               vote_at env (color_n s + COLOR_SAMPLES * j) COLOR_SAMPLES
               <> Some magenta) ->
    vote_at env (color_n s + COLOR_SAMPLES * k) COLOR_SAMPLES = Some magenta ->
    wait_for_magenta env fuel s
    = Done tt (after s (COLOR_SAMPLES * k + COLOR_SAMPLES)
                     (wait_events k ++ vote_events COLOR_SAMPLES)).
Proof.
  induction k as [|k IH]; intros fuel s Hfuel Hno Hyes;
    (destruct fuel as [|fuel]; [lia|]); rewrite wait_for_magenta_step.
  - rewrite Nat.mul_0_r, Nat.add_0_r in Hyes.
    rewrite (proj2 (is_label_magenta _) Hyes), Nat.mul_0_r. reflexivity.
  - pose proof (Hno 0%nat (Nat.lt_0_succ k)) as H0.
    rewrite Nat.mul_0_r, Nat.add_0_r in H0.
    destruct (is_label magenta _) eqn:Hm.
    + apply is_label_magenta in Hm. contradiction.
    + rewrite (IH fuel).
      * rewrite after_after. cbn [wait_events]. rewrite <- app_assoc.
        do 2 f_equal. lia.
      * lia.
      * intros j Hj. cbn [after color_n]. rewrite vote_index_succ.
        apply Hno. lia.
      * cbn [after color_n]. rewrite vote_index_succ. exact Hyes.
Qed.

(** If the loop ended, a vote was magenta, and it was the first. *)
Lemma wait_for_magenta_done (env : Env) (fuel : nat) :
  forall (s s' : St),
    wait_for_magenta env fuel s = Done tt s' ->
    exists k,
      (k < fuel)%nat
      /\ vote_at env (color_n s + COLOR_SAMPLES * k) COLOR_SAMPLES
         = Some magenta
      /\ (forall j, (j < k)%nat ->
                    vote_at env (color_n s + COLOR_SAMPLES * j) COLOR_SAMPLES
                    <> Some magenta)
      /\ s' = after s (COLOR_SAMPLES * k + COLOR_SAMPLES)
                    (wait_events k ++ vote_events COLOR_SAMPLES).
Proof.
  induction fuel as [|fuel IH]; intros s s' Hrun.
  - discriminate Hrun.
  - rewrite wait_for_magenta_step in Hrun.
    destruct (is_label magenta _) eqn:Hm.
    + apply is_label_magenta in Hm. exists 0%nat.
      split; [lia|]. split; [|split].
      * rewrite Nat.mul_0_r, Nat.add_0_r. exact Hm.
      * intros j Hj. lia.
      * injection Hrun as <-. rewrite Nat.mul_0_r. reflexivity.
    + apply IH in Hrun. destruct Hrun as (k & Hk & Hyes & Hno & Hs').
      cbn [after color_n] in Hyes, Hno.
      exists (S k). split; [lia|]. split; [|split].
      * rewrite <- vote_index_succ. exact Hyes.
      * intros [|j] Hj.
        -- rewrite Nat.mul_0_r, Nat.add_0_r. intros Hv.
           apply is_label_magenta in Hv. congruence.
        -- rewrite <- vote_index_succ. apply Hno. lia.
      * rewrite Hs', after_after. cbn [wait_events]. rewrite <- app_assoc.
        f_equal. lia.
Qed.

(** C8: [do_parking] returns only after a magenta vote, and then it has
    braked, waited through the earlier votes, and run the parking sequence;
    when no vote is magenta it never returns, whatever the fuel, and has then
    only braked, voted and paused: no steering, no driving, no time limit.
    Conversely it does return once a vote is magenta. *)
Theorem parking_only_after_magenta (env : Env) (s : St) :
  (forall fuel s',
      do_parking env fuel s = Done tt s' ->
      exists k,
        (k < fuel)%nat
        /\ parking_vote env s k = Some magenta
        /\ (forall j, (j < k)%nat -> parking_vote env s j <> Some magenta)
        /\ trace s'
           = trace s ++ [Brake_drive] ++ wait_events k
             ++ vote_events COLOR_SAMPLES ++ park_events)
  /\ ((forall k, parking_vote env s k <> Some magenta) ->
      forall fuel,
      exists s',
        do_parking env fuel s = Out_of_fuel s'
        /\ trace s' = trace s ++ [Brake_drive] ++ wait_events fuel)
  /\ (forall k,
         parking_vote env s k = Some magenta ->
         (forall j, (j < k)%nat -> parking_vote env s j <> Some magenta) ->
         forall fuel,
           (k < fuel)%nat ->
           exists s',
             do_parking env fuel s = Done tt s'
             /\ trace s'
                = trace s ++ [Brake_drive] ++ wait_events k
                  ++ vote_events COLOR_SAMPLES ++ park_events).
Proof.
  unfold parking_vote, do_parking, drive_stop.
  rewrite after_emit.
  assert (Hpark : forall s1 : St,
             trace (exec park_sequence s1) = trace s1 ++ park_events).
  { intros s1. unfold park_sequence, park_events. run_prog.
    rewrite <- !app_assoc. reflexivity. }
  split; [|split].
  - intros fuel s' Hrun.
    destruct (wait_for_magenta env fuel (after s 0 [Brake_drive]))
      as [[] s1|s1] eqn:Hwait; [|discriminate].
    injection Hrun as <-.
    apply wait_for_magenta_done in Hwait.
    destruct Hwait as (k & Hk & Hyes & Hno & ->).
    cbn [after color_n] in Hyes, Hno. rewrite Nat.add_0_r in Hyes.
    exists k. split; [exact Hk|]. split; [exact Hyes|]. split.
    + intros j Hj. specialize (Hno j Hj). rewrite Nat.add_0_r in Hno.
      exact Hno.
    + rewrite Hpark. cbn [after trace]. rewrite <- !app_assoc. reflexivity.
  - intros Hnever fuel.
    rewrite wait_for_magenta_none.
    + eexists. split; [reflexivity|].
      cbn [after trace]. rewrite <- !app_assoc. reflexivity.
    + intros j _. cbn [after color_n]. rewrite Nat.add_0_r. apply Hnever.
  - intros k Hyes Hno fuel Hk.
    rewrite (wait_for_magenta_found env k).
    + eexists. split; [reflexivity|].
      rewrite Hpark. cbn [after trace]. rewrite <- !app_assoc. reflexivity.
    + exact Hk.
    + intros j Hj. cbn [after color_n]. rewrite Nat.add_0_r. apply Hno, Hj.
    + cbn [after color_n]. rewrite Nat.add_0_r. exact Hyes.
Qed.

Lemma parking_only_after_magenta_witness :
  (forall fuel,
      exists s',
        do_parking (steady_hub None None None) fuel st0 = Out_of_fuel s'
        /\ trace s' = trace st0 ++ [Brake_drive] ++ wait_events fuel)
  /\ (exists s',
         do_parking (steady_hub None None (Some (80, 10, 80))) 1 st0
         = Done tt s'
         /\ trace s'
            = trace st0 ++ [Brake_drive] ++ wait_events 0
              ++ vote_events COLOR_SAMPLES ++ park_events).
Proof.
  split.
  - apply (proj1 (proj2 (parking_only_after_magenta
                           (steady_hub None None None) st0))).
    intros k. vm_compute. discriminate.
  - apply (proj2 (proj2 (parking_only_after_magenta
                           (steady_hub None None (Some (80, 10, 80))) st0))
                 0%nat).
    + reflexivity.
    + intros j Hj. lia.
    + lia.
Defined.

Lemma vote_color_quorum_tie_break_witness :
  result (vote_color (steady_hub None None (Some (80, 10, 10))) COLOR_SAMPLES)
         st0
  = result (vote_color (steady_hub None None (Some (70, 62, 62))) COLOR_SAMPLES)
           st0.
Proof.
  apply (proj2 (proj2 (vote_color_quorum_tie_break
                         (steady_hub None None (Some (70, 62, 62)))
                         COLOR_SAMPLES st0))).
  reflexivity.
Defined.

(** * Further properties of the program *)

(** ** Hue *)

Lemma Qltb_lt (x y : Q) : Qltb x y = true <-> (x < y)%Q.
Proof. unfold Qltb, Qlt. apply Z.ltb_lt. Qed.

Lemma Qltb_ge (x y : Q) : Qltb x y = false <-> (y <= x)%Q.
Proof. unfold Qltb, Qle. apply Z.ltb_ge. Qed.

Lemma max3_spec (a b c : Q) :
  (a <= max3 a b c /\ b <= max3 a b c /\ c <= max3 a b c)%Q
  /\ (max3 a b c = a \/ max3 a b c = b \/ max3 a b c = c).
Proof.
  unfold max3.
  destruct (Qltb a b) eqn:Hab;
    [apply Qltb_lt in Hab | apply Qltb_ge in Hab];
    match goal with
    | |- context [Qltb ?x c] =>
        destruct (Qltb x c) eqn:Hc;
        [apply Qltb_lt in Hc | apply Qltb_ge in Hc]
    end; (split; [repeat split; lra | tauto]).
Qed.

Lemma min3_spec (a b c : Q) :
  (min3 a b c <= a /\ min3 a b c <= b /\ min3 a b c <= c)%Q
  /\ (min3 a b c = a \/ min3 a b c = b \/ min3 a b c = c).
Proof.
  unfold min3.
  destruct (Qltb b a) eqn:Hab;
    [apply Qltb_lt in Hab | apply Qltb_ge in Hab];
    match goal with
    | |- context [Qltb c ?x] =>
        destruct (Qltb c x) eqn:Hc;
        [apply Qltb_lt in Hc | apply Qltb_ge in Hc]
    end; (split; [repeat split; lra | tauto]).
Qed.


Lemma spread_zero (a b c : Q) :
  (max3 a b c - min3 a b c == 0)%Q <-> (a == b /\ b == c)%Q.
Proof.
  destruct (max3_spec a b c) as [(Ha & Hb & Hc) Hmx].
  destruct (min3_spec a b c) as [(Ha' & Hb' & Hc') Hmn].
  split.
  - intros Hd. split; lra.
  - intros [Hab Hbc].
    destruct Hmx as [-> | [-> | ->]], Hmn as [-> | [-> | ->]]; lra.
Qed.




(** ** Windows *)

Lemma Qle_bool_false (x y : Q) : Qle_bool x y = false <-> (y < x)%Q.
Proof.
  split.
  - intros H. apply Qnot_le_lt. intros Hle.
    apply Qle_bool_iff in Hle. congruence.
  - intros H. destruct (Qle_bool x y) eqn:E; [|reflexivity].
    apply Qle_bool_iff in E. lra.
Qed.

Ltac window_cases :=
  repeat match goal with
         | |- context [Qle_bool ?x ?y] =>
             let E := fresh "E" in
             destruct (Qle_bool x y) eqn:E;
             [apply Qle_bool_iff in E | apply Qle_bool_false in E]
         end.

Lemma in_window_period (h : option Q) (center win : Z) :
  in_window h (center + 360) win = in_window h center win.
Proof.
  unfold in_window. destruct h as [q|]; [|reflexivity].
  replace (center + 360 - win) with (center - win + 1 * 360) by lia.
  replace (center + 360 + win) with (center + win + 1 * 360) by lia.
  rewrite !Z_mod_plus_full. reflexivity.
Qed.

Lemma red_test_once (h : option Q) :
  in_window h 0 20 || in_window h 360 20 = in_window h 0 20.
Proof.
  change 360 with (0 + 360) at 1. rewrite in_window_period. apply orb_diag.
Qed.

(** X3: in_window depends on its centre only modulo 360, so the second red
    test of classify_once (centre 360) never adds anything to the first
    (centre 0). *)
Theorem in_window_center_period (h : option Q) (center win : Z) :
  in_window h (center + 360) win = in_window h center win
  /\ in_window h 0 20 || in_window h 360 20 = in_window h 0 20.
Proof.
  split; [apply in_window_period | apply red_test_once].
Qed.

Lemma window_bounds (h : Q) :
  (in_window (Some h) 0 20 = true <-> (340 <= h \/ h <= 20)%Q)
  /\ (in_window (Some h) 120 25 = true <-> (95 <= h /\ h <= 145)%Q)
  /\ (in_window (Some h) 300 25 = true <-> (275 <= h /\ h <= 325)%Q).
Proof.
  unfold in_window.
  change ((0 - 20) mod 360) with 340. change ((0 + 20) mod 360) with 20.
  change ((120 - 25) mod 360) with 95. change ((120 + 25) mod 360) with 145.
  change ((300 - 25) mod 360) with 275. change ((300 + 25) mod 360) with 325.
  cbn [Z.leb Z.compare Pos.compare Pos.compare_cont].
  rewrite orb_true_iff, !andb_true_iff, !Qle_bool_iff.
  repeat split; tauto.
Qed.

Lemma windows_exclusive (h : option Q) :
  in_window h 0 20 && in_window h 120 25 = false
  /\ in_window h 0 20 && in_window h 300 25 = false
  /\ in_window h 120 25 && in_window h 300 25 = false.
Proof.
  destruct h as [q|]; [|repeat split; reflexivity].
  destruct (window_bounds q) as (Hr & Hg & Hm).
  destruct (in_window (Some q) 0 20);
    destruct (in_window (Some q) 120 25);
    destruct (in_window (Some q) 300 25);
    repeat split; try reflexivity; exfalso;
    repeat match goal with
           | H : true = true <-> _ |- _ => apply proj1 in H; specialize (H eq_refl)
           | H : false = true <-> _ |- _ => clear H
           end;
    change (inject_Z 340) with 340%Q in *; change (inject_Z 20) with 20%Q in *;
    change (inject_Z 95) with 95%Q in *; change (inject_Z 145) with 145%Q in *;
    change (inject_Z 275) with 275%Q in *; change (inject_Z 325) with 325%Q in *;
    lra.
Qed.

(** X4: The three hue windows used by classify_once are: red h >= 340 or h
    <= 20, green 95 <= h <= 145, magenta 275 <= h <= 325; no hue is in two
    of them. *)
Theorem hue_windows_disjoint (h : Q) :
  (in_window (Some h) 0 20 = true <-> (340 <= h \/ h <= 20)%Q)
  /\ (in_window (Some h) 120 25 = true <-> (95 <= h /\ h <= 145)%Q)
  /\ (in_window (Some h) 300 25 = true <-> (275 <= h /\ h <= 325)%Q)
  /\ in_window (Some h) 0 20 && in_window (Some h) 120 25 = false
  /\ in_window (Some h) 0 20 && in_window (Some h) 300 25 = false
  /\ in_window (Some h) 120 25 && in_window (Some h) 300 25 = false.
Proof.
  destruct (window_bounds h) as (Hr & Hg & Hm).
  destruct (windows_exclusive (Some h)) as (Hrg & Hrm & Hgm).
  exact (conj Hr (conj Hg (conj Hm (conj Hrg (conj Hrm Hgm))))).
Qed.

(** X5: For a sample bright enough (r+g+b >= 40) the label is red, green or
    magenta exactly when the hue is in that label's window, whatever the
    order of the tests, and white exactly when the hue is in no window and
    the white test holds. *)
Theorem classify_rgb_by_window (r g b : Z) :
  MIN_VALUE_SUM <= r + g + b ->
  let h := hue_from_rgb r g b in
  (classify_rgb (r, g, b) = Some red <-> in_window h 0 20 = true)
  /\ (classify_rgb (r, g, b) = Some green <-> in_window h 120 25 = true)
  /\ (classify_rgb (r, g, b) = Some magenta <-> in_window h 300 25 = true)
  /\ (classify_rgb (r, g, b) = Some white
      <-> (in_window h 0 20 = false /\ in_window h 120 25 = false
           /\ in_window h 300 25 = false /\ white_test r g b = true)).
Proof.
  intros Hsum h. unfold classify_rgb. fold h.
  apply Z.ltb_ge in Hsum. rewrite Hsum.
  rewrite red_test_once.
  destruct (windows_exclusive h) as (Hrg & Hrm & Hgm).
  destruct (in_window h 0 20), (in_window h 120 25), (in_window h 300 25),
    (white_test r g b); cbn in Hrg, Hrm, Hgm; try discriminate;
    repeat split; intros; try discriminate; try reflexivity;
    repeat match goal with H : _ /\ _ |- _ => destruct H end;
    try discriminate.
Qed.

Lemma classify_rgb_by_window_witness :
  let h := hue_from_rgb 10 80 10 in
  (classify_rgb (10, 80, 10) = Some red <-> in_window h 0 20 = true)
  /\ (classify_rgb (10, 80, 10) = Some green <-> in_window h 120 25 = true)
  /\ (classify_rgb (10, 80, 10) = Some magenta <-> in_window h 300 25 = true)
  /\ (classify_rgb (10, 80, 10) = Some white
      <-> (in_window h 0 20 = false /\ in_window h 120 25 = false
           /\ in_window h 300 25 = false /\ white_test 10 80 10 = true)).
Proof.
  apply (classify_rgb_by_window 10 80 10). unfold MIN_VALUE_SUM. lia.
Defined.

(** ** The marker check against the classifier *)

Lemma white_test_bright (r g b : Z) :
  white_test r g b = true -> 180 < r + g + b.
Proof.
  unfold white_test. rewrite !andb_true_iff. intros [[[Hr Hg] Hb] _].
  apply Z.gtb_lt in Hr, Hg, Hb. lia.
Qed.

(** X6: On the same sample, if classify_once answers 'white' then
    see_white_marker answers True, and if see_white_marker answers True then
    classify_once answers some label, never None. *)
Theorem marker_check_agrees_on_labels (env : Env) (s : St) :
  (result (classify_once env) s = Some white ->
   result (see_white_marker env) s = true)
  /\ (result (see_white_marker env) s = true ->
      result (classify_once env) s <> None).
Proof.
  rewrite result_see_white_marker, result_classify_once.
  destruct (result (get_rgb env) s) as [[r g] b].
  unfold classify_rgb. split.
  - destruct (r + g + b <? MIN_VALUE_SUM); [discriminate|].
    destruct (in_window _ 0 20 || in_window _ 360 20); [discriminate|].
    destruct (in_window _ 120 25); [discriminate|].
    destruct (in_window _ 300 25); [discriminate|].
    destruct (white_test r g b); [reflexivity | discriminate].
  - intros Hw. pose proof (white_test_bright r g b Hw) as Hsum.
    replace (r + g + b <? MIN_VALUE_SUM) with false
      by (symmetry; apply Z.ltb_ge; unfold MIN_VALUE_SUM; lia).
    rewrite Hw.
    destruct (in_window _ 0 20 || in_window _ 360 20); [discriminate|].
    destruct (in_window _ 120 25); [discriminate|].
    destruct (in_window _ 300 25); discriminate.
Qed.

Lemma marker_check_agrees_on_labels_witness :
  result (see_white_marker (steady_hub None None (Some (70, 70, 70)))) st0
  = true
  /\ result (classify_once (steady_hub None None (Some (70, 62, 62)))) st0
     <> None.
Proof.
  split.
  - apply (proj1 (marker_check_agrees_on_labels
                    (steady_hub None None (Some (70, 70, 70))) st0)).
    reflexivity.
  - apply (proj2 (marker_check_agrees_on_labels
                    (steady_hub None None (Some (70, 62, 62))) st0)).
    reflexivity.
Defined.

Lemma hue_gray (v : Z) : hue_from_rgb v v v = None.
Proof.
  unfold hue_from_rgb.
  replace (Qeq_bool _ 0) with true; [reflexivity|].
  symmetry. apply Qeq_bool_iff, spread_zero. split; reflexivity.
Qed.

(** X7: A gray sample (v, v, v) is labelled white when v > 60 and gets no
    label otherwise; it is never red, green or magenta. *)
Theorem classify_gray (v : Z) :
  classify_rgb (v, v, v) = if v >? 60 then Some white else None.
Proof.
  unfold classify_rgb.
  rewrite hue_gray.
  cbn [in_window orb].
  unfold white_test. rewrite Z.sub_diag. cbn [Z.abs Z.max Z.ltb Z.compare].
  rewrite !andb_true_r, !andb_diag.
  unfold MIN_VALUE_SUM.
  destruct (Z.ltb_spec (v + v + v) 40), (Z.gtb_spec v 60);
    try reflexivity; lia.
Qed.

(** ** More on the vote *)

Lemma tally_total (ls : list (option Color)) :
  0 <= tally red ls /\ 0 <= tally green ls /\ 0 <= tally magenta ls
  /\ 0 <= tally white ls
  /\ tally red ls + tally green ls + tally magenta ls + tally white ls
     <= Z.of_nat (List.length ls).
Proof.
  induction ls as [|l ls IH].
  - cbn. lia.
  - rewrite !tally_cons. cbn [List.length].
    destruct l as [[ | | | ]|]; cbn [is_label Color_eqb]; lia.
Qed.

Lemma labels_length (env : Env) (k n : nat) : List.length (labels env k n) = n.
Proof. unfold labels. rewrite length_map, length_seq. reflexivity. Qed.

Lemma result_vote_color (env : Env) (n : nat) (s : St) :
  result (vote_color env n) s = vote_at env (color_n s) n.
Proof. unfold result. rewrite vote_color_run. reflexivity. Qed.

(** X8: If a label has at least 2 of the samples' labels and more than half
    of them, vote_color returns that label. *)
Theorem vote_color_majority (env : Env) (n : nat) (s : St) (w : Color) :
  2 <= tally w (labels env (color_n s) n) ->
  Z.of_nat n < 2 * tally w (labels env (color_n s) n) ->
  result (vote_color env n) s = Some w.
Proof.
  intros Hq Hmaj. rewrite result_vote_color. unfold vote_at, tallies.
  pose proof (tally_total (labels env (color_n s) n)) as Ht.
  rewrite labels_length in Ht.
  set (ls := labels env (color_n s) n) in *.
  apply (pick_top_spec (fun k => tally k ls) w).
  split; [exact Hq|].
  split; intros k; destruct w, k; cbn [rank]; lia.
Qed.

(** X9: vote_color called with fewer than 2 samples always returns None. *)
Theorem vote_color_needs_two_samples (env : Env) (n : nat) (s : St) :
  (n < 2)%nat -> result (vote_color env n) s = None.
Proof.
  intros Hn. rewrite result_vote_color. unfold vote_at, tallies.
  pose proof (tally_total (labels env (color_n s) n)) as Ht.
  rewrite labels_length in Ht.
  set (ls := labels env (color_n s) n) in *.
  apply (pick_top_none (fun k => tally k ls)).
  intros k; destruct k; lia.
Qed.

(** X10: vote_color(n) reads exactly n colour samples, sleeps 20 ms after
    each, reads no other input and commands no motor. *)
Theorem vote_color_effect (env : Env) (n : nat) (s : St) :
  let s' := exec (vote_color env n) s in
  front_n s' = front_n s /\ side_n s' = side_n s
  /\ color_n s' = (color_n s + n)%nat
  /\ ticks_n s' = ticks_n s /\ button_n s' = button_n s
  /\ trace s' = trace s ++ repeat (Sleep_ms 20) n.
Proof.
  unfold exec. rewrite vote_color_run. repeat split; reflexivity.
Qed.

(** ** What the policy does to the state *)

Lemma steer_arc_run (angle_deg : Z) (hold_s : Q) (s : St) :
  steer_arc angle_deg hold_s s = (tt, after s 0 (arc_events angle_deg hold_s)).
Proof.
  unfold steer_arc, arc_events, after. run_prog.
  rewrite Nat.add_0_r, <- !app_assoc. reflexivity.
Qed.

Lemma pillar_response_run (env : Env) (s : St) :
  pillar_response env s
  = (tt, after s COLOR_SAMPLES
               (pillar_events (vote_at env (color_n s) COLOR_SAMPLES))).
Proof.
  unfold pillar_response. run_prog. rewrite vote_color_run.
  unfold after, pillar_events, arc_events.
  cbn [front_n side_n color_n ticks_n button_n trace].
  destruct (vote_at env (color_n s) COLOR_SAMPLES) as [[ | | | ]|];
    cbn [fst snd trace front_n side_n color_n ticks_n button_n];
    rewrite <- !app_assoc; reflexivity.
Qed.

Lemma maneuver_run (env : Env) (sit : Situation) (s : St) :
  maneuver env sit s
  = (tt, after s (maneuver_samples sit)
               (maneuver_events sit (vote_at env (color_n s) COLOR_SAMPLES))).
Proof.
  destruct sit; cbn [maneuver maneuver_samples maneuver_events].
  - apply steer_arc_run.
  - apply steer_arc_run.
  - apply steer_arc_run.
  - apply pillar_response_run.
  - unfold ret. rewrite after_0. reflexivity.
Qed.

Lemma sense_and_decide_run (env : Env) (s : St) :
  sense_and_decide env s
  = (tt,
     let sit := spec_select (front_at env (front_n s))
                            (side_at env (side_n s)) in
     mkSt (S (front_n s)) (S (side_n s)) (color_n s + maneuver_samples sit)
          (ticks_n s) (button_n s)
          (trace s
           ++ maneuver_events sit (vote_at env (color_n s) COLOR_SAMPLES))).
Proof.
  unfold sense_and_decide, bind, get_front_mm, get_side_mm.
  cbn [front_n side_n]. rewrite decision_policy_maneuver, maneuver_run.
  reflexivity.
Qed.

Lemma after_same_trace (s : St) (n : nat) (es : list Event) :
  after s n es = s -> es = [].
Proof.
  intros H. apply (f_equal trace) in H. cbn [after trace] in H.
  rewrite <- (app_nil_r (trace s)) in H at 2.
  apply app_inv_head in H. exact H.
Qed.

(** X11: Each handler returns False only when it left the state untouched
    (no read, no event) and True only after its maneuver: a 45-degree arc
    right or left for handle_cornering, the wall nudge for
    handle_wall_nudge, the pillar response for handle_pillar. *)
Theorem handlers_return_true_iff_acted (env : Env) (ud sd : Z) (s : St) :
  (result (handle_cornering ud sd) s = false ->
   exec (handle_cornering ud sd) s = s)
  /\ (result (handle_cornering ud sd) s = true ->
      exists angle,
        (angle = STEER_RIGHT_TURN \/ angle = STEER_LEFT_TURN)
        /\ trace (exec (handle_cornering ud sd) s)
           = trace s ++ arc_events angle TURN_90_TIME_S)
  /\ (result (handle_wall_nudge sd) s = false ->
      exec (handle_wall_nudge sd) s = s)
  /\ (result (handle_wall_nudge sd) s = true ->
      trace (exec (handle_wall_nudge sd) s)
      = trace s ++ arc_events STEER_WALL_NUDGE WALL_NUDGE_S)
  /\ (result (handle_pillar env ud sd) s = false ->
      exec (handle_pillar env ud sd) s = s)
  /\ (result (handle_pillar env ud sd) s = true ->
      trace (exec (handle_pillar env ud sd) s)
      = trace s ++ pillar_events (vote_at env (color_n s) COLOR_SAMPLES)).
Proof.
  unfold handle_cornering, handle_wall_nudge, handle_pillar.
  repeat split.
  - destruct (_ && _); [discriminate|]. destruct (_ && _); [discriminate|].
    reflexivity.
  - destruct (_ && _).
    + intros _. exists STEER_RIGHT_TURN. split; [tauto|].
      unfold exec, bind. rewrite steer_arc_run. reflexivity.
    + destruct (_ && _); [|discriminate].
      intros _. exists STEER_LEFT_TURN. split; [tauto|].
      unfold exec, bind. rewrite steer_arc_run. reflexivity.
  - destruct (sd <? WALL_TOO_NEAR_MM); [discriminate | reflexivity].
  - destruct (sd <? WALL_TOO_NEAR_MM); [|discriminate].
    intros _. unfold exec, bind. rewrite steer_arc_run. reflexivity.
  - destruct (_ && _); [|reflexivity].
    unfold result. run_prog. split_vote env; discriminate.
  - destruct (_ && _); [|discriminate]. intros _.
    transitivity (trace (exec (pillar_response env) s)).
    + unfold pillar_response. run_prog. split_vote env; reflexivity.
    + unfold exec. rewrite pillar_response_run. reflexivity.
Qed.

(** X12: The three-step policy of the loop body does nothing at all exactly
    when side >= 130 and (front >= 250 or side <= 350) and (front >= 200 or
    side >= 200); in particular a blocked front (< 200) with the side
    between 200 and 350 mm triggers no maneuver. *)
Theorem policy_idle_iff (env : Env) (ud sd : Z) (s : St) :
  decision_policy env ud sd s = (tt, s)
  <-> (WALL_TOO_NEAR_MM <= sd
       /\ (PILLAR_FRONT_MM <= ud \/ sd <= PILLAR_SIDE_CLEAR)
       /\ (CORNER_FRONT_MM <= ud \/ CORNER_RIGHT_TIGHT <= sd)).
Proof.
  rewrite decision_policy_maneuver, maneuver_run.
  assert (Hsel : spec_select ud sd = NoAction
                 <-> (WALL_TOO_NEAR_MM <= sd
                      /\ (PILLAR_FRONT_MM <= ud \/ sd <= PILLAR_SIDE_CLEAR)
                      /\ (CORNER_FRONT_MM <= ud \/ CORNER_RIGHT_TIGHT <= sd))).
  { unfold spec_select, priority_order, detector. cbn [find].
    unfold CORNER_FRONT_MM, CORNER_RIGHT_OPEN, CORNER_RIGHT_TIGHT,
      PILLAR_FRONT_MM, PILLAR_SIDE_CLEAR, WALL_TOO_NEAR_MM.
    destruct (Z.ltb_spec ud 200), (Z.ltb_spec ud 250), (Z.ltb_spec sd 200),
      (Z.ltb_spec sd 130), (Z.gtb_spec sd 600), (Z.gtb_spec sd 350);
      cbn [andb]; split; intros; try discriminate; try reflexivity;
      try lia. }
  rewrite <- Hsel. split.
  - intros Hrun. injection Hrun as Hrun. apply after_same_trace in Hrun.
    destruct (spec_select ud sd); try reflexivity; discriminate Hrun.
  - intros ->. cbn [maneuver_samples maneuver_events]. rewrite after_0.
    reflexivity.
Qed.

(** ** Posture: where the motors were last sent *)

Lemma steer_after_app (a : option Z) (l es : list Event) :
  steer_after a (l ++ es) = steer_after (steer_after a l) es.
Proof. apply fold_left_app. Qed.

Lemma probe_after_app (a : option Z) (l es : list Event) :
  probe_after a (l ++ es) = probe_after (probe_after a l) es.
Proof. apply fold_left_app. Qed.

Lemma drive_after_app (a : option Drive) (l es : list Event) :
  drive_after a (l ++ es) = drive_after (drive_after a l) es.
Proof. apply fold_left_app. Qed.

Lemma maneuver_posture (sit : Situation) (sig : option Color)
      (a : option Z) (p : option Z) (d : option Drive) :
  (steer_after a (maneuver_events sit sig) = Some 0
   \/ steer_after a (maneuver_events sit sig) = a)
  /\ (probe_after p (maneuver_events sit sig) = Some PROBE_UP_DEG
      \/ probe_after p (maneuver_events sit sig) = p)
  /\ (drive_after d (maneuver_events sit sig) = Some (Running CRUISE_SPEED_DPS)
      \/ drive_after d (maneuver_events sit sig) = d).
Proof.
  destruct sit; try (repeat split; (left; reflexivity) || (right; reflexivity)).
  destruct sig as [[ | | | ]|];
    repeat split; (left; reflexivity) || (right; reflexivity).
Qed.

(** X13: After the policy step the steering motor is either untouched or was
    last sent to 0, the probe is either untouched or was last sent up (301),
    and the drive motor is either untouched or running at cruise speed. *)
Theorem policy_posture (env : Env) (ud sd : Z) (s : St) :
  let s' := exec (decision_policy env ud sd) s in
  (steer_after None (trace s') = Some 0
   \/ steer_after None (trace s') = steer_after None (trace s))
  /\ (probe_after None (trace s') = Some PROBE_UP_DEG
      \/ probe_after None (trace s') = probe_after None (trace s))
  /\ (drive_after None (trace s') = Some (Running CRUISE_SPEED_DPS)
      \/ drive_after None (trace s') = drive_after None (trace s)).
Proof.
  unfold exec. rewrite decision_policy_maneuver, maneuver_run.
  cbn [snd after trace].
  rewrite steer_after_app, probe_after_app, drive_after_app.
  apply maneuver_posture.
Qed.

(** ** The loop body, in full *)

Lemma lap_detection_run (env : Env) (l : LapState) (s : St) :
  lap_detection env l s
  = (let seen := marker_at env (color_n s) in
     let now := ticks_ms env (ticks_n s) in
     let accepted := seen && (now - last_white_ms l >? WHITE_COOLDOWN) in
     (if accepted then mkLap (laps_done l + 1) now else l,
      mkSt (front_n s) (side_n s) (S (color_n s))
           (if seen then S (ticks_n s) else ticks_n s) (button_n s)
           (trace s ++ if accepted then [Sleep_s (4 # 10)] else []))).
Proof.
  unfold lap_detection, see_white_marker, get_rgb, ms, marker_at, bind.
  cbn [color_n ticks_n].
  destruct (dev_color_get env (color_n s)) as [[[r g] b]|];
    cbn zeta;
    match goal with
    | |- context [white_test ?x ?y ?z] => destruct (white_test x y z)
    end; unfold ret, sleep, emit;
    cbn [andb front_n side_n color_n ticks_n button_n trace];
    try match goal with
        | |- context [Z.gtb ?x ?y] => destruct (Z.gtb x y)
        end;
    rewrite ?app_nil_r; reflexivity.
Qed.

Lemma loop_body_run (env : Env) (l : LapState) (s : St) :
  loop_body env l s
  = (let sit := spec_select (front_at env (front_n s))
                            (side_at env (side_n s)) in
     let sig := vote_at env (color_n s) COLOR_SAMPLES in
     let c := (color_n s + maneuver_samples sit)%nat in
     let seen := marker_at env c in
     let now := ticks_ms env (ticks_n s) in
     let accepted := seen && (now - last_white_ms l >? WHITE_COOLDOWN) in
     (if accepted then mkLap (laps_done l + 1) now else l,
      mkSt (S (front_n s)) (S (side_n s)) (S c)
           (if seen then S (ticks_n s) else ticks_n s) (button_n s)
           (trace s ++ maneuver_events sit sig
            ++ (if accepted then [Sleep_s (4 # 10)] else [])
            ++ [Sleep_ms 10]))).
Proof.
  unfold loop_body, bind. rewrite sense_and_decide_run, lap_detection_run.
  cbn zeta. cbn [front_n side_n color_n ticks_n button_n trace].
  unfold wait_ms, emit, ret.
  cbn [front_n side_n color_n ticks_n button_n trace].
  rewrite <- !app_assoc. reflexivity.
Qed.

(** X14: One iteration of the race loop reads exactly one front and one side
    distance, 1 or 9 colour samples, at most one clock value and never the
    button, and ends with the 10 ms sleep. *)
Theorem loop_body_reads (env : Env) (l : LapState) (s : St) :
  let s' := exec (loop_body env l) s in
  front_n s' = S (front_n s)
  /\ side_n s' = S (side_n s)
  /\ (color_n s' = (color_n s + 1)%nat
      \/ color_n s' = (color_n s + COLOR_SAMPLES + 1)%nat)
  /\ (ticks_n s' = ticks_n s \/ ticks_n s' = S (ticks_n s))
  /\ button_n s' = button_n s
  /\ exists es, trace s' = trace s ++ es ++ [Sleep_ms 10].
Proof.
  unfold exec. rewrite loop_body_run. cbn zeta.
  cbn [snd front_n side_n color_n ticks_n button_n trace].
  split; [reflexivity|]. split; [reflexivity|]. split; [|split; [|split]].
  - destruct (spec_select _ _); cbn [maneuver_samples]; lia.
  - destruct (marker_at env _); tauto.
  - reflexivity.
  - eexists (_ ++ _). rewrite <- app_assoc. reflexivity.
Qed.

(** X15: One iteration either leaves the lap state unchanged or counts
    exactly one lap and stores the clock value read, which is then more than
    2000 ms after the previous stored value. *)
Theorem loop_body_lap_step (env : Env) (l : LapState) (s : St) :
  let l' := result (loop_body env l) s in
  l' = l
  \/ (laps_done l' = laps_done l + 1
      /\ last_white_ms l' = ticks_ms env (ticks_n s)
      /\ last_white_ms l + WHITE_COOLDOWN < last_white_ms l').
Proof.
  unfold result. rewrite loop_body_run. cbn zeta. cbn [fst].
  destruct (marker_at env _); cbn [andb]; [|left; reflexivity].
  destruct (Z.gtb_spec (ticks_ms env (ticks_n s) - last_white_ms l)
                       WHITE_COOLDOWN).
  - right. cbn [laps_done last_white_ms]. repeat split. lia.
  - left. reflexivity.
Qed.

(** ** The race loop *)

Lemma race_loop_step (env : Env) (fuel : nat) (l : LapState) (s : St) :
  race_loop env (S fuel) l s
  = if laps_done l <? 3
    then race_loop env fuel (result (loop_body env l) s)
                   (exec (loop_body env l) s)
    else Done l s.
Proof.
  cbn [race_loop]. rewrite (run_eq (loop_body env l) s). reflexivity.
Qed.

(** X16: When the race loop ends, laps_done is max(initial laps_done, 3), so
    exactly 3 from the start value 0; it needs at least as many iterations
    as laps were missing, and started with 3 or more laps it ends at once
    without reading anything. *)
Theorem race_loop_counts_three (env : Env) (fuel : nat) :
  forall (l l' : LapState) (s s' : St),
    race_loop env fuel l s = Done l' s' ->
    laps_done l' = Z.max (laps_done l) 3
    /\ 3 - laps_done l <= Z.of_nat fuel
    /\ (3 <= laps_done l -> l' = l /\ s' = s).
Proof.
  induction fuel as [|fuel IH]; intros l l' s s' Hrun.
  - cbn [race_loop] in Hrun.
    destruct (Z.ltb_spec (laps_done l) 3); [discriminate|].
    injection Hrun as <- <-. repeat split; lia.
  - rewrite race_loop_step in Hrun.
    destruct (Z.ltb_spec (laps_done l) 3).
    + apply IH in Hrun. destruct Hrun as (Hlaps & Hfuel & _).
      unfold result in Hlaps, Hfuel. rewrite loop_body_run in Hlaps, Hfuel.
      cbn zeta in Hlaps, Hfuel. cbn [fst] in Hlaps, Hfuel.
      destruct (_ && _); cbn [laps_done] in Hlaps, Hfuel;
        repeat split; lia.
    + injection Hrun as <- <-. repeat split; lia.
Qed.

(** X17: If no later colour sample passes the white test, the race loop
    never ends (it runs out of any fuel), so parking is never reached. *)
Theorem race_loop_without_marker (env : Env) (fuel : nat) :
  forall (l : LapState) (s : St),
    laps_done l < 3 ->
    (forall k, (color_n s <= k)%nat -> marker_at env k = false) ->
    exists s', race_loop env fuel l s = Out_of_fuel s'.
Proof.
  induction fuel as [|fuel IH]; intros l s Hlaps Hdark.
  - cbn [race_loop]. apply Z.ltb_lt in Hlaps. rewrite Hlaps.
    eexists; reflexivity.
  - rewrite race_loop_step.
    rewrite (proj2 (Z.ltb_lt _ _) Hlaps).
    assert (Hl : result (loop_body env l) s = l).
    { unfold result. rewrite loop_body_run. cbn zeta. cbn [fst].
      rewrite Hdark by lia. reflexivity. }
    rewrite Hl. apply IH; [exact Hlaps|].
    intros k Hk. apply Hdark.
    unfold exec in Hk. rewrite loop_body_run in Hk.
    cbn zeta in Hk. cbn [snd color_n] in Hk. lia.
Qed.

Lemma race_loop_finished (env : Env) (fuel : nat) (l : LapState) (s : St) :
  3 <= laps_done l -> race_loop env fuel l s = Done l s.
Proof.
  intros H. apply Z.ltb_ge in H.
  destruct fuel; cbn [race_loop]; rewrite H; reflexivity.
Qed.

Lemma loop_body_quiet_lap (env : Env) (l : LapState) (s : St) :
  spec_select (front_at env (front_n s)) (side_at env (side_n s)) = NoAction ->
  marker_at env (color_n s) = true ->
  WHITE_COOLDOWN < ticks_ms env (ticks_n s) - last_white_ms l ->
  loop_body env l s
  = (mkLap (laps_done l + 1) (ticks_ms env (ticks_n s)),
     mkSt (S (front_n s)) (S (side_n s)) (S (color_n s)) (S (ticks_n s))
          (button_n s) (trace s ++ [Sleep_s (4 # 10); Sleep_ms 10])).
Proof.
  intros Hquiet Hseen Hpast. rewrite loop_body_run, Hquiet.
  cbn [maneuver_samples maneuver_events]. cbn zeta.
  rewrite Nat.add_0_r, Hseen. apply Z.gtb_lt in Hpast. rewrite Hpast.
  reflexivity.
Qed.

Lemma race_loop_quiet_lap (env : Env) (fuel : nat) (l : LapState) (s : St) :
  laps_done l < 3 ->
  spec_select (front_at env (front_n s)) (side_at env (side_n s)) = NoAction ->
  marker_at env (color_n s) = true ->
  WHITE_COOLDOWN < ticks_ms env (ticks_n s) - last_white_ms l ->
  race_loop env (S fuel) l s
  = race_loop env fuel
      (mkLap (laps_done l + 1) (ticks_ms env (ticks_n s)))
      (mkSt (S (front_n s)) (S (side_n s)) (S (color_n s)) (S (ticks_n s))
            (button_n s) (trace s ++ [Sleep_s (4 # 10); Sleep_ms 10])).
Proof.
  intros Hlaps Hquiet Hseen Hpast.
  rewrite race_loop_step. apply Z.ltb_lt in Hlaps. rewrite Hlaps.
  unfold result, exec.
  rewrite (loop_body_quiet_lap env l s Hquiet Hseen Hpast). reflexivity.
Qed.

(** X18: From 0 laps, if the next three readings trigger no maneuver, the
    next three colour samples pass the white test and the three clock values
    are each more than 2000 ms after the previous stored time, the race loop
    ends after exactly three iterations with laps_done = 3, having only
    slept. *)
Theorem three_spaced_markers_end_the_race
        (env : Env) (fuel : nat) (l : LapState) (s : St) :
  let t := fun i => ticks_ms env (ticks_n s + i) in
  laps_done l = 0 ->
  (3 <= fuel)%nat ->
  (forall i, (i < 3)%nat ->
             spec_select (front_at env (front_n s + i))
                         (side_at env (side_n s + i)) = NoAction) ->
  (forall i, (i < 3)%nat -> marker_at env (color_n s + i) = true) ->
  WHITE_COOLDOWN < t 0%nat - last_white_ms l ->
  WHITE_COOLDOWN < t 1%nat - t 0%nat ->
  WHITE_COOLDOWN < t 2%nat - t 1%nat ->
  race_loop env fuel l s
  = Done (mkLap 3 (t 2%nat))
         (mkSt (front_n s + 3) (side_n s + 3) (color_n s + 3) (ticks_n s + 3)
               (button_n s)
               (trace s ++ [Sleep_s (4 # 10); Sleep_ms 10;
                            Sleep_s (4 # 10); Sleep_ms 10;
                            Sleep_s (4 # 10); Sleep_ms 10])).
Proof.
  intros t Hl Hfuel Hquiet Hseen H0 H1 H2. subst t. cbn beta in *.
  destruct fuel as [|[|[|fuel]]]; try lia.
  pose proof (Hquiet 0%nat ltac:(lia)) as Q0.
  pose proof (Hquiet 1%nat ltac:(lia)) as Q1.
  pose proof (Hquiet 2%nat ltac:(lia)) as Q2.
  pose proof (Hseen 0%nat ltac:(lia)) as S0.
  pose proof (Hseen 1%nat ltac:(lia)) as S1.
  pose proof (Hseen 2%nat ltac:(lia)) as S2.
  rewrite !Nat.add_0_r in *.
  replace (front_n s + 1)%nat with (S (front_n s)) in * by lia.
  replace (side_n s + 1)%nat with (S (side_n s)) in * by lia.
  replace (color_n s + 1)%nat with (S (color_n s)) in * by lia.
  replace (ticks_n s + 1)%nat with (S (ticks_n s)) in * by lia.
  replace (front_n s + 2)%nat with (S (S (front_n s))) in * by lia.
  replace (side_n s + 2)%nat with (S (S (side_n s))) in * by lia.
  replace (color_n s + 2)%nat with (S (S (color_n s))) in * by lia.
  replace (ticks_n s + 2)%nat with (S (S (ticks_n s))) in * by lia.
  replace (front_n s + 3)%nat with (S (S (S (front_n s)))) by lia.
  replace (side_n s + 3)%nat with (S (S (S (side_n s)))) by lia.
  replace (color_n s + 3)%nat with (S (S (S (color_n s)))) by lia.
  replace (ticks_n s + 3)%nat with (S (S (S (ticks_n s)))) by lia.
  rewrite race_loop_quiet_lap by (assumption || lia).
  rewrite race_loop_quiet_lap by (assumption || (cbn [laps_done]; lia)).
  rewrite race_loop_quiet_lap by (assumption || (cbn [laps_done]; lia)).
  rewrite race_loop_finished by (cbn [laps_done]; lia).
  cbn [front_n side_n color_n ticks_n button_n trace laps_done].
  rewrite Hl, <- !app_assoc. reflexivity.
Qed.

(** ** The start gate *)

Lemma after_button_after_button (s : St) (n m : nat) (es fs : list Event) :
  after_button (after_button s n es) m fs = after_button s (n + m) (es ++ fs).
Proof.
  unfold after_button. cbn [front_n side_n color_n ticks_n button_n trace].
  rewrite Nat.add_assoc, app_assoc. reflexivity.
Qed.

Lemma wait_button_step (env : Env) (want : bool) (fuel : nat) (s : St) :
  wait_button env want (S fuel) s
  = if Bool.eqb (button_right_is_pressed env (button_n s)) want
    then Done tt (after_button s 1 [])
    else wait_button env want fuel (after_button s 1 [Sleep_ms 30]).
Proof.
  cbn [wait_button]. unfold is_pressed, after_button, exec, wait_ms, emit.
  cbn [snd front_n side_n color_n ticks_n button_n trace].
  rewrite Nat.add_1_r, app_nil_r. reflexivity.
Qed.

(** The loop ends at the first read that has the wanted value, having slept
    30 ms after each earlier read; it runs out of fuel when none of the reads
    it can afford has it. *)
Lemma wait_button_spec (env : Env) (want : bool) (fuel : nat) :
  forall s : St,
    (exists k,
        (k < fuel)%nat
        /\ button_right_is_pressed env (button_n s + k) = want
        /\ (forall j, (j < k)%nat ->
                      button_right_is_pressed env (button_n s + j)
                      = negb want)
        /\ wait_button env want fuel s
           = Done tt (after_button s (S k) (repeat (Sleep_ms 30) k)))
    \/ ((forall j, (j < fuel)%nat ->
                   button_right_is_pressed env (button_n s + j) = negb want)
        /\ wait_button env want fuel s
           = Out_of_fuel (after_button s fuel (repeat (Sleep_ms 30) fuel))).
Proof.
  induction fuel as [|fuel IH]; intros s.
  - right. split; [intros j Hj; lia|].
    cbn [wait_button repeat]. unfold after_button.
    rewrite Nat.add_0_r, app_nil_r. destruct s; reflexivity.
  - rewrite wait_button_step.
    destruct (Bool.eqb _ want) eqn:Hb.
    + left. exists 0%nat. apply eqb_prop in Hb.
      rewrite Nat.add_0_r. repeat split; [lia | exact Hb | intros j Hj; lia].
    + apply eqb_false_iff in Hb.
      assert (Hneg : button_right_is_pressed env (button_n s) = negb want)
        by (destruct (button_right_is_pressed env (button_n s)), want;
            cbn; congruence).
      destruct (IH (after_button s 1 [Sleep_ms 30]))
        as [(k & Hk & Hyes & Hno & Hrun) | (Hno & Hrun)];
        cbn [after_button button_n] in Hyes, Hno || cbn [after_button button_n] in Hno.
      * left. exists (S k). split; [lia|]. split; [|split].
        -- rewrite <- Hyes. f_equal. lia.
        -- intros [|j] Hj; [rewrite Nat.add_0_r; exact Hneg|].
           rewrite <- (Hno j) by lia. f_equal. lia.
        -- rewrite Hrun, after_button_after_button. reflexivity.
      * right. split.
        -- intros [|j] Hj; [rewrite Nat.add_0_r; exact Hneg|].
           rewrite <- (Hno j) by lia. f_equal. lia.
        -- rewrite Hrun, after_button_after_button. reflexivity.
Qed.


Lemma startup_run (s : St) :
  exec (startup ;; emit (Print_msg "Press RIGHT hub button to start…"))%prog s
  = after_button s 0
      (startup_events ++ [Print_msg "Press RIGHT hub button to start…"]).
Proof.
  unfold startup, startup_events, after_button. run_prog.
  rewrite Nat.add_0_r, <- !app_assoc. reflexivity.
Qed.

(** X20: If the button, once pressed, is never read as released (this
    includes never pressed), main never gets past the start gate: it only
    sets the startup posture, prints and sleeps, and never starts the drive
    motor. *)
Theorem main_needs_press_and_release (env : Env) (fuel : nat) (s : St) :
  (forall i j, (i < j)%nat ->
               button_right_is_pressed env (button_n s + i) = true ->
               button_right_is_pressed env (button_n s + j) = true) ->
  exists reads sleeps,
    main env fuel s
    = Out_of_fuel
        (after_button s reads
           (startup_events ++ [Print_msg "Press RIGHT hub button to start…"]
            ++ repeat (Sleep_ms 30) sleeps)).
Proof.
  intros Hheld. unfold main. rewrite startup_run.
  destruct (wait_button_spec env true fuel
              (after_button s 0
                 (startup_events
                  ++ [Print_msg "Press RIGHT hub button to start…"])))
    as [(k & Hk & Hyes & _ & Hdone) | (_ & Hout)].
  - rewrite Hdone.
    cbn [after_button button_n] in Hyes. rewrite Nat.add_0_r in Hyes.
    match goal with
    | |- context [wait_button env false fuel ?s1] =>
        destruct (wait_button_spec env false fuel s1)
          as [(k2 & Hk2 & Hyes2 & _ & _) | (_ & Hout2)]
    end.
    + exfalso. cbn [after_button button_n] in Hyes2.
      match type of Hyes2 with
      | button_right_is_pressed env ?n = _ =>
          replace n with (button_n s + (S k + k2))%nat in Hyes2 by lia
      end.
      rewrite (Hheld k (S k + k2)%nat) in Hyes2;
        [discriminate | lia | exact Hyes].
    + rewrite Hout2, !after_button_after_button.
      exists (0 + S k + fuel)%nat, (k + fuel)%nat.
      rewrite <- !app_assoc, <- repeat_app. reflexivity.
  - rewrite Hout, after_button_after_button.
    exists (0 + fuel)%nat, fuel. rewrite <- !app_assoc. reflexivity.
Qed.

(** ** Posture at the end of parking and of the run *)

Lemma sleeps_posture (t : Z) (n : nat)
      (a : option Z) (p : option Z) (d : option Drive) :
  steer_after a (repeat (Sleep_ms t) n) = a
  /\ probe_after p (repeat (Sleep_ms t) n) = p
  /\ drive_after d (repeat (Sleep_ms t) n) = d.
Proof.
  induction n as [|n IH]; [repeat split|exact IH].
Qed.

Lemma wait_events_posture (k : nat)
      (a : option Z) (p : option Z) (d : option Drive) :
  steer_after a (wait_events k) = a
  /\ probe_after p (wait_events k) = p
  /\ drive_after d (wait_events k) = d.
Proof.
  induction k as [|k IH]; [repeat split|].
  cbn [wait_events].
  rewrite steer_after_app, probe_after_app, drive_after_app. exact IH.
Qed.

Lemma park_sequence_run (s : St) :
  exec park_sequence s = after s 0 park_events.
Proof.
  unfold park_sequence, park_events, after. run_prog.
  rewrite Nat.add_0_r, <- !app_assoc. reflexivity.
Qed.

Lemma do_parking_done_trace (env : Env) (fuel : nat) (s s' : St) :
  do_parking env fuel s = Done tt s' ->
  exists k,
    trace s'
    = trace s ++ [Brake_drive] ++ wait_events k
      ++ vote_events COLOR_SAMPLES ++ park_events.
Proof.
  unfold do_parking, drive_stop. rewrite after_emit. intros Hrun.
  destruct (wait_for_magenta env fuel (after s 0 [Brake_drive]))
    as [[] s1|s1] eqn:Hwait; [|discriminate].
  injection Hrun as <-.
  apply wait_for_magenta_done in Hwait.
  destruct Hwait as (k & _ & _ & _ & ->).
  exists k. rewrite park_sequence_run. cbn [after trace].
  rewrite <- !app_assoc. reflexivity.
Qed.

Lemma do_parking_posture (env : Env) (fuel : nat) (s s' : St) :
  do_parking env fuel s = Done tt s' ->
  steer_after None (trace s') = Some 0
  /\ drive_after None (trace s') = Some Braked
  /\ probe_after None (trace s') = probe_after None (trace s).
Proof.
  intros Hrun. apply do_parking_done_trace in Hrun. destruct Hrun as [k ->].
  rewrite !steer_after_app, !probe_after_app, !drive_after_app.
  destruct (wait_events_posture k
              (steer_after (steer_after None (trace s)) [Brake_drive])
              (probe_after (probe_after None (trace s)) [Brake_drive])
              (drive_after (drive_after None (trace s)) [Brake_drive]))
    as (-> & -> & ->).
  repeat split.
Qed.

(** X21: When do_parking returns, the last steering command was to 0, the
    last drive command was brake, and the probe was not moved. *)
Theorem parking_ends_braked_and_straight (env : Env) (fuel : nat) (s s' : St) :
  do_parking env fuel s = Done tt s' ->
  steer_after None (trace s') = Some 0
  /\ drive_after None (trace s') = Some Braked
  /\ probe_after None (trace s') = probe_after None (trace s).
Proof. apply do_parking_posture. Qed.

Lemma race_loop_posture (env : Env) (fuel : nat) :
  forall (l l' : LapState) (s s' : St),
    race_loop env fuel l s = Done l' s' ->
    steer_after None (trace s) = Some 0 ->
    probe_after None (trace s) = Some PROBE_UP_DEG ->
    steer_after None (trace s') = Some 0
    /\ probe_after None (trace s') = Some PROBE_UP_DEG.
Proof.
  induction fuel as [|fuel IH]; intros l l' s s' Hrun Hsteer Hprobe.
  - cbn [race_loop] in Hrun. destruct (laps_done l <? 3); [discriminate|].
    injection Hrun as <- <-. split; assumption.
  - rewrite race_loop_step in Hrun. destruct (laps_done l <? 3).
    + apply IH in Hrun; [exact Hrun | |];
        unfold exec; rewrite loop_body_run; cbn zeta; cbn [snd trace];
        rewrite ?steer_after_app, ?probe_after_app.
      * rewrite Hsteer.
        destruct (maneuver_posture
                    (spec_select (front_at env (front_n s))
                                 (side_at env (side_n s)))
                    (vote_at env (color_n s) COLOR_SAMPLES)
                    (Some 0) None None) as ([-> | ->] & _);
          destruct (_ && _); reflexivity.
      * rewrite Hprobe.
        destruct (maneuver_posture
                    (spec_select (front_at env (front_n s))
                                 (side_at env (side_n s)))
                    (vote_at env (color_n s) COLOR_SAMPLES)
                    None (Some PROBE_UP_DEG) None) as (_ & [-> | ->] & _);
          destruct (_ && _); reflexivity.
    + injection Hrun as <- <-. split; assumption.
Qed.

(** X22: When main runs to its end, the steering was last sent to 0, the
    drive motor was last braked and the probe was last sent up (301). *)
Theorem main_ends_parked (env : Env) (fuel : nat) (s s' : St) :
  main env fuel s = Done tt s' ->
  steer_after None (trace s') = Some 0
  /\ drive_after None (trace s') = Some Braked
  /\ probe_after None (trace s') = Some PROBE_UP_DEG.
Proof.
  unfold main. rewrite startup_run. intros Hrun.
  destruct (wait_button_spec env true fuel
              (after_button s 0
                 (startup_events
                  ++ [Print_msg "Press RIGHT hub button to start…"])))
    as [(k1 & _ & _ & _ & Hw1) | (_ & Hw1)];
    rewrite Hw1 in Hrun; [|discriminate].
  match type of Hrun with
  | context [wait_button env false fuel ?s1] =>
      destruct (wait_button_spec env false fuel s1)
        as [(k2 & _ & _ & _ & Hw2) | (_ & Hw2)];
      rewrite Hw2 in Hrun; [|discriminate]
  end.
  rewrite !after_button_after_button in Hrun.
  destruct (race_loop env fuel lap0 _) as [l3 s3|s3] eqn:Hrace;
    [|discriminate].
  destruct (do_parking env fuel s3) as [[] s4|s4] eqn:Hpark; [|discriminate].
  injection Hrun as <-.
  apply race_loop_posture in Hrace.
  - destruct Hrace as [Hsteer Hprobe].
    pose proof (do_parking_posture env fuel s3 s4 Hpark) as (Hs & Hd & Hp).
    unfold exec, emit. cbn [snd trace].
    rewrite steer_after_app, drive_after_app, probe_after_app, Hs, Hd, Hp.
    repeat split. exact Hprobe.
  - unfold exec, drive_forward, emit, after_button. cbn [snd trace].
    rewrite !steer_after_app.
    rewrite !(proj1 (sleeps_posture 30 _ _ None None)). reflexivity.
  - unfold exec, drive_forward, emit, after_button. cbn [snd trace].
    rewrite !probe_after_app.
    rewrite !(proj1 (proj2 (sleeps_posture 30 _ None _ None))). reflexivity.
Qed.

(** ** A failed side read *)

(** X23: A failed side read (99999) counts as open to the right: with front
    < 200 the loop performs the right corner turn, with 200 <= front < 250
    the pillar response, otherwise nothing; it never causes the wall nudge
    or the left failsafe. *)
Theorem side_failure_reads_as_open (env : Env) (s : St) :
  dev_side_get env (side_n s) = None ->
  let ud := front_at env (front_n s) in
  trace (exec (sense_and_decide env) s)
  = trace s
    ++ maneuver_events
         (if ud <? CORNER_FRONT_MM then CornerRightOpen
          else if ud <? PILLAR_FRONT_MM then PillarCandidate
          else NoAction)
         (vote_at env (color_n s) COLOR_SAMPLES).
Proof.
  intros Hfail ud. unfold exec. rewrite sense_and_decide_run.
  cbn zeta. cbn [snd trace]. fold ud.
  unfold side_at. rewrite Hfail.
  unfold spec_select, priority_order, detector. cbn [find].
  unfold CORNER_FRONT_MM, PILLAR_FRONT_MM.
  destruct (Z.ltb_spec ud 200), (Z.ltb_spec ud 250);
    try reflexivity; lia.
Qed.

Lemma side_failure_reads_as_open_witness :
  trace (exec (sense_and_decide (steady_hub (Some 150) None None)) st0)
  = arc_events STEER_RIGHT_TURN TURN_90_TIME_S.
Proof.
  apply (side_failure_reads_as_open (steady_hub (Some 150) None None) st0).
  reflexivity.
Defined.

(** ** Instances *)


Lemma vote_color_majority_witness :
  result (vote_color (steady_hub None None (Some (10, 80, 10))) 8) st0
  = Some green.
Proof.
  apply (vote_color_majority (steady_hub None None (Some (10, 80, 10))) 8 st0).
  - vm_compute. discriminate.
  - vm_compute. reflexivity.
Defined.

Lemma vote_color_needs_two_samples_witness :
  result (vote_color (steady_hub None None (Some (10, 80, 10))) 1) st0 = None.
Proof.
  apply (vote_color_needs_two_samples
           (steady_hub None None (Some (10, 80, 10))) 1 st0).
  lia.
Defined.

Lemma handlers_return_true_iff_acted_witness :
  exec (handle_cornering 300 800) st0 = st0
  /\ trace (exec (handle_wall_nudge 100) st0)
     = trace st0 ++ arc_events STEER_WALL_NUDGE WALL_NUDGE_S.
Proof.
  destruct (handlers_return_true_iff_acted
              (steady_hub None None None) 300 100 st0)
    as (_ & _ & _ & Hnudge & _).
  destruct (handlers_return_true_iff_acted
              (steady_hub None None None) 300 800 st0)
    as (Hcorner & _).
  split; [apply Hcorner | apply Hnudge]; reflexivity.
Defined.

Lemma race_loop_counts_three_witness :
  exists l' s',
    race_loop race_hub 4 lap0 st0 = Done l' s'
    /\ laps_done l' = Z.max (laps_done lap0) 3
    /\ 3 - laps_done lap0 <= Z.of_nat 4
    /\ (3 <= laps_done lap0 -> l' = lap0 /\ s' = st0).
Proof.
  eexists. eexists. split; [vm_compute; reflexivity|].
  apply (race_loop_counts_three race_hub 4 lap0 _ st0 _).
  vm_compute. reflexivity.
Defined.

Lemma race_loop_without_marker_witness :
  exists s', race_loop (steady_hub None None None) 5 lap0 st0 = Out_of_fuel s'.
Proof.
  apply (race_loop_without_marker (steady_hub None None None) 5 lap0 st0).
  - cbn. lia.
  - intros k Hk. reflexivity.
Defined.

Lemma three_spaced_markers_end_the_race_witness :
  race_loop race_hub 3 lap0 st0
  = Done (mkLap 3 6000)
         (mkSt 3 3 3 3 0
               [Sleep_s (4 # 10); Sleep_ms 10; Sleep_s (4 # 10); Sleep_ms 10;
                Sleep_s (4 # 10); Sleep_ms 10]).
Proof.
  apply (three_spaced_markers_end_the_race race_hub 3 lap0 st0).
  - reflexivity.
  - lia.
  - intros [|[|[|i]]] Hi; try reflexivity; lia.
  - intros [|[|[|i]]] Hi; try reflexivity; lia.
  - vm_compute. reflexivity.
  - vm_compute. reflexivity.
  - vm_compute. reflexivity.
Defined.


Lemma main_needs_press_and_release_witness :
  exists reads sleeps,
    main (steady_hub None None None) 5 st0
    = Out_of_fuel
        (after_button st0 reads
           (startup_events ++ [Print_msg "Press RIGHT hub button to start…"]
            ++ repeat (Sleep_ms 30) sleeps)).
Proof.
  apply (main_needs_press_and_release (steady_hub None None None) 5 st0).
  intros i j _ H. cbn in H. discriminate H.
Defined.

Lemma parking_ends_braked_and_straight_witness :
  steer_after None
    (trace (run_state (do_parking (steady_hub None None (Some (80, 10, 80)))
                                  1 st0)))
  = Some 0
  /\ drive_after None
       (trace (run_state (do_parking (steady_hub None None (Some (80, 10, 80)))
                                     1 st0)))
     = Some Braked
  /\ probe_after None
       (trace (run_state (do_parking (steady_hub None None (Some (80, 10, 80)))
                                     1 st0)))
     = probe_after None (trace st0).
Proof.
  apply (parking_ends_braked_and_straight
           (steady_hub None None (Some (80, 10, 80))) 1 st0).
  vm_compute. reflexivity.
Defined.

Lemma main_ends_parked_witness :
  steer_after None (trace (run_state (main race_hub 4 st0))) = Some 0
  /\ drive_after None (trace (run_state (main race_hub 4 st0))) = Some Braked
  /\ probe_after None (trace (run_state (main race_hub 4 st0)))
     = Some PROBE_UP_DEG.
Proof.
  apply (main_ends_parked race_hub 4 st0). vm_compute. reflexivity.
Defined.

(** ** Pure colours *)

Lemma channel_pos (v : Z) : 0 < v -> (0 < inject_Z v / 100)%Q.
Proof.
  intros Hv. unfold Qlt, Qdiv, Qmult, Qinv, inject_Z. cbn [Qnum Qden]. lia.
Qed.

Section PureColours.

Variables a z : Q.
Hypothesis Ha : (0 < a)%Q.
Hypothesis Hz : (z == 0)%Q.

Lemma Qltb_za : Qltb z a = true.
Proof. apply Qltb_lt. lra. Qed.

Lemma Qltb_az : Qltb a z = false.
Proof. apply Qltb_ge. lra. Qed.

Lemma Qltb_irrefl (x : Q) : Qltb x x = false.
Proof. apply Qltb_ge. lra. Qed.

Lemma Qeq_bool_az : Qeq_bool a z = false.
Proof.
  destruct (Qeq_bool a z) eqn:E; [|reflexivity].
  apply Qeq_bool_eq in E. lra.
Qed.

Lemma Qeq_bool_refl' (x : Q) : Qeq_bool x x = true.
Proof. apply Qeq_bool_iff. reflexivity. Qed.

Lemma Qeq_bool_spread : Qeq_bool (a - z) 0 = false.
Proof.
  destruct (Qeq_bool (a - z) 0) eqn:E; [|reflexivity].
  apply Qeq_bool_eq in E. lra.
Qed.

Lemma Qmod_small (x : Q) : (x == 0)%Q -> (Qmod x 6 == 0)%Q.
Proof.
  intros Hx. unfold Qmod.
  assert (Hf : Qfloor (x / 6) = 0).
  { rewrite Hx. reflexivity. }
  rewrite Hf, Hx. reflexivity.
Qed.

Lemma Qmod_minus_one (x : Q) : (x == -1)%Q -> (Qmod x 6 == 5)%Q.
Proof.
  intros Hx. unfold Qmod.
  assert (Hf : Qfloor (x / 6) = -1).
  { rewrite Hx. reflexivity. }
  rewrite Hf, Hx. reflexivity.
Qed.

End PureColours.

Lemma in_window_compat (q q' : Q) (center win : Z) :
  (q == q')%Q -> in_window (Some q) center win = in_window (Some q') center win.
Proof.
  intros H. unfold in_window.
  destruct (_ <=? _); rewrite H; reflexivity.
Qed.

Ltac pure_hue v :=
  unfold hue_from_rgb;
  pose proof (channel_pos v ltac:(assumption)) as Ha;
  assert (Hz : (inject_Z 0 / 100 == 0)%Q) by reflexivity;
  set (a := (inject_Z v / 100)%Q) in *;
  set (z := (inject_Z 0 / 100)%Q) in *;
  clearbody a z;
  unfold max3, min3;
  rewrite ?(Qltb_za a z Ha Hz), ?(Qltb_az a z Ha Hz), ?Qltb_irrefl,
    ?(Qltb_za a z Ha Hz), ?(Qltb_az a z Ha Hz), ?Qltb_irrefl;
  rewrite (Qeq_bool_spread a z Ha Hz),
    ?(Qeq_bool_az a z Ha Hz), ?Qeq_bool_refl', ?(Qeq_bool_az a z Ha Hz),
    ?Qeq_bool_refl';
  eexists; split; [reflexivity|].

Lemma pure_hues (v : Z) :
  0 < v ->
  (exists q, hue_from_rgb v 0 0 = Some q /\ (q == 0)%Q)
  /\ (exists q, hue_from_rgb 0 v 0 = Some q /\ (q == 120)%Q)
  /\ (exists q, hue_from_rgb 0 0 v = Some q /\ (q == 240)%Q)
  /\ (exists q, hue_from_rgb v 0 v = Some q /\ (q == 300)%Q).
Proof.
  intros Hv. split; [|split; [|split]].
  - pure_hue v.
    rewrite (Qmod_small ((z - z) / (a - z))); [reflexivity|].
    field. lra.
  - pure_hue v.
    assert (H : ((z - z) / (a - z) == 0)%Q) by (field; lra).
    rewrite H. reflexivity.
  - pure_hue v.
    assert (H : ((z - z) / (a - z) == 0)%Q) by (field; lra).
    rewrite H. reflexivity.
  - pure_hue v.
    rewrite (Qmod_minus_one ((z - a) / (a - z))); [reflexivity|].
    field. lra.
Qed.

(** X24: For every intensity v > 0 the pure samples (v,0,0), (0,v,0),
    (0,0,v), (v,0,v) have hue 0, 120, 240, 300; with v >= 40 they are
    labelled red, green, none (blue has no label), magenta. *)
Theorem pure_colours_at_any_intensity (v : Z) :
  0 < v ->
  ((exists q, hue_from_rgb v 0 0 = Some q /\ (q == 0)%Q)
   /\ (exists q, hue_from_rgb 0 v 0 = Some q /\ (q == 120)%Q)
   /\ (exists q, hue_from_rgb 0 0 v = Some q /\ (q == 240)%Q)
   /\ (exists q, hue_from_rgb v 0 v = Some q /\ (q == 300)%Q))
  /\ (MIN_VALUE_SUM <= v ->
      classify_rgb (v, 0, 0) = Some red
      /\ classify_rgb (0, v, 0) = Some green
      /\ classify_rgb (0, 0, v) = None
      /\ classify_rgb (v, 0, v) = Some magenta).
Proof.
  intros Hv. split; [apply pure_hues; exact Hv|].
  intros Hbright.
  destruct (pure_hues v Hv)
    as ((qr & Hr & Er) & (qg & Hg & Eg) & (qb & Hb & Eb) & (qm & Hm & Em)).
  unfold classify_rgb. rewrite Hr, Hg, Hb, Hm.
  rewrite !(in_window_compat qr _ _ _ Er), !(in_window_compat qg _ _ _ Eg),
    !(in_window_compat qb _ _ _ Eb), !(in_window_compat qm _ _ _ Em).
  unfold MIN_VALUE_SUM in *.
  destruct (Z.ltb_spec (v + 0 + 0) 40), (Z.ltb_spec (0 + v + 0) 40),
    (Z.ltb_spec (0 + 0 + v) 40), (Z.ltb_spec (v + 0 + v) 40); try lia.
  repeat split; reflexivity.
Qed.

Lemma pure_colours_at_any_intensity_witness :
  classify_rgb (55, 0, 0) = Some red
  /\ classify_rgb (0, 55, 0) = Some green
  /\ classify_rgb (0, 0, 55) = None
  /\ classify_rgb (55, 0, 55) = Some magenta.
Proof.
  apply (pure_colours_at_any_intensity 55).
  - lia.
  - unfold MIN_VALUE_SUM. lia.
Defined.
